(** * OjassGuardSystem: the user and guard controllers

    A shallow embedding of [backend/src/controllers/user.controller.js] and
    [backend/src/controllers/guard.controller.js], and what holds of them.

    - JavaScript values that reach the controllers through a JSON body, a
      cookie, a route parameter or a stored document are [JsVal], with the
      conversions the controllers rely on: ToBoolean in [!x] and [a || b],
      ToNumber in [<] and [>], [===].
    - A MongoDB document is a finite map from field names to values; a
      collection is the list of its documents in natural order. A document
      holds what the controller passes: casts, defaults, hooks and indexes
      of the schemas are no part of the two controller files.
    - A handler is a computation over the database and the response under
      construction that either returns or throws; state changes made before
      a throw stay, as they do in the source. What [asyncHandler] and the
      error middleware make of a thrown error is outside the controllers.
    - The models' methods, [jwt.verify], the media upload and the ObjectId
      cast are imported by the controllers; a handler takes them as an
      environment [Env]. Database calls themselves do not fail, except for
      the cast of an id.
    - [req.body] is an object and [req.params] holds strings, as
      [express.json], [express.urlencoded] and the router of app.js leave
      them; [req.cookies], [req.files] and [req.user] may be missing. *)

From Stdlib Require Import ZArith QArith Qcanon Ascii String List Bool Lia.
From stdpp Require Import base option numbers list strings gmap.

Set Default Proof Using "Type".
Open Scope string_scope.

(** ** JavaScript values *)

(** ObjectIds are abstract. *)
Definition ObjectId := positive.
Bind Scope positive_scope with ObjectId.

(** A JavaScript number: a finite double (seen as the rational it denotes),
    an infinity, or NaN. *)
Inductive JsNumber :=
| NaN
| PosInf
| NegInf
| Fin (q : Qc).

Inductive JsVal :=
| VUndef
| VNull
| VBool (b : bool)
| VNum (n : JsNumber)
| VStr (s : string)
| VId (i : ObjectId)          (* a mongoose ObjectId *)
| VArr (json : string)        (* an array, by its JSON text *)
| VObj (json : string).       (* any other object, by its JSON text *)

#[global] Instance JsNumber_eq_dec : EqDecision JsNumber.
Proof. solve_decision. Defined.

#[global] Instance JsVal_eq_dec : EqDecision JsVal.
Proof. solve_decision. Defined.

#[global] Instance JsVal_inhabited : Inhabited JsVal := populate VUndef.

Definition num (z : Z) : JsVal := VNum (Fin (Q2Qc (inject_Z z))).

(** ToBoolean. *)
Definition truthy (v : JsVal) : bool :=
  match v with
  | VUndef | VNull => false
  | VBool b => b
  | VNum NaN => false
  | VNum (Fin q) => negb (bool_decide (q = 0%Qc))
  | VNum _ => true
  | VStr s => negb (bool_decide (s = EmptyString))
  | VId _ | VArr _ | VObj _ => true
  end.

(** [a || b] on values. *)
Definition js_or (a b : JsVal) : JsVal := if truthy a then a else b.

(** [a < b] on numbers: false as soon as one side is NaN. *)
Definition num_lt (a b : JsNumber) : bool :=
  match a, b with
  | NaN, _ | _, NaN => false
  | _, NegInf => false
  | NegInf, _ => true
  | PosInf, _ => false
  | Fin _, PosInf => true
  | Fin x, Fin y => bool_decide (x < y)%Qc
  end.

(** [a === b] between a value of the request and a value read from the
    database: primitives compare by type and value, NaN differs from itself,
    and two objects are never the same reference. *)
Definition strict_eq (a b : JsVal) : bool :=
  match a, b with
  | VUndef, VUndef | VNull, VNull => true
  | VBool x, VBool y => bool_decide (x = y)
  | VNum NaN, VNum _ | VNum _, VNum NaN => false
  | VNum x, VNum y => bool_decide (x = y)
  | VStr x, VStr y => bool_decide (x = y)
  | _, _ => false
  end.

(** [String.prototype.toLowerCase] on ASCII letters. *)
Definition lower_ascii (c : ascii) : ascii :=
  let n := nat_of_ascii c in
  if (65 <=? n)%nat && (n <=? 90)%nat then ascii_of_nat (n + 32) else c.

Fixpoint lower (s : string) : string :=
  match s with
  | EmptyString => EmptyString
  | String c r => String (lower_ascii c) (lower r)
  end.

(** White space removed by [String.prototype.trim] (the ASCII part). *)
Definition is_space (c : ascii) : bool :=
  let n := nat_of_ascii c in
  (n =? 32)%nat || ((9 <=? n)%nat && (n <=? 13)%nat).

Fixpoint trim_left (s : string) : string :=
  match s with
  | String c r => if is_space c then trim_left r else s
  | EmptyString => EmptyString
  end.

Fixpoint trim_right (s : string) : string :=
  match s with
  | EmptyString => EmptyString
  | String c r =>
      match trim_right r with
      | EmptyString => if is_space c then EmptyString else String c EmptyString
      | r' => String c r'
      end
  end.

Definition trim (s : string) : string := trim_right (trim_left s).

(** ** Documents and collections *)

Abbreviation Doc := (gmap string JsVal).

(** [d.k]: a missing field reads as [undefined]. *)
Definition field (d : Doc) (k : string) : JsVal := default VUndef (d !! k).

(** The projection [.select("-password -refreshToken")], also the
    [$project] stage [{password: 0, refreshToken: 0}]. *)
Definition hide_secrets (d : Doc) : Doc :=
  delete "refreshToken" (delete "password" d).

Inductive Model := User | Guard | Location | Complain | Appreciation.

#[global] Instance Model_eq_dec : EqDecision Model.
Proof. solve_decision. Defined.

Record Db := mkDb {
  users : list Doc;
  guards : list Doc;
  locations : list Doc;
  complains : list Doc;
  appreciations : list Doc
}.

Definition coll (m : Model) (db : Db) : list Doc :=
  match m with
  | User => users db
  | Guard => guards db
  | Location => locations db
  | Complain => complains db
  | Appreciation => appreciations db
  end.

Definition set_coll (m : Model) (c : list Doc) (db : Db) : Db :=
  match m with
  | User => mkDb c (guards db) (locations db) (complains db) (appreciations db)
  | Guard => mkDb (users db) c (locations db) (complains db) (appreciations db)
  | Location => mkDb (users db) (guards db) c (complains db) (appreciations db)
  | Complain => mkDb (users db) (guards db) (locations db) c (appreciations db)
  | Appreciation => mkDb (users db) (guards db) (locations db) (complains db) c
  end.

(** A query condition [{k: q}]: equality, where a [null] or [undefined]
    operand matches a field that is null or missing. *)
Definition cond_eq (k : string) (q : JsVal) (d : Doc) : bool :=
  match q with
  | VUndef | VNull =>
      match d !! k with
      | None | Some VNull | Some VUndef => true
      | Some _ => false
      end
  | _ => bool_decide (d !! k = Some q)
  end.

(** [{_id: i}]. *)
Definition has_id (i : ObjectId) (d : Doc) : bool :=
  bool_decide (d !! "_id" = Some (VId i)).

(** First document that satisfies the filter. *)
Definition find_first (p : Doc -> bool) (c : list Doc) : option Doc :=
  List.find p c.

(** Apply [f] to the first document that satisfies the filter. *)
Fixpoint update_first (p : Doc -> bool) (f : Doc -> Doc) (c : list Doc)
  : list Doc :=
  match c with
  | [] => []
  | d :: r => if p d then f d :: r else d :: update_first p f r
  end.

(** ** Requests, responses, errors *)

Record Request := mkReq {
  req_cookies : option Doc;                    (* req.cookies *)
  req_body : Doc;                              (* req.body, as the body parsers of app.js leave it *)
  req_params : gmap string string;             (* req.params *)
  req_files : option (gmap string (list Doc)); (* req.files, set by the upload middleware *)
  req_user : option Doc                        (* req.user, set by the auth middleware *)
}.

Record CookieOptions := mkOpts {
  httpOnly : bool;
  secure : bool;
  sameSite : string;
  maxAge : option Z
}.

Record Cookie := mkCookie {
  c_name : string;
  c_value : string;
  c_options : CookieOptions
}.

(** What a controller puts in the [data] member of an [ApiResponse]. *)
Inductive Data :=
| DDoc (d : Doc)
| DDocs (l : list Doc)
| DReqUser (u : option Doc)
| DTokens (accessToken refreshToken : string)
| DLogin (key : string) (account : Doc) (accessToken refreshToken : string)
| DEmpty
| DJoined (l : list (Doc * Doc)).  (* location documents with their guardDetails *)

Inductive Body :=
| ApiResponse (statusCode : Z) (data : Data) (message : string)
| StatusOnly (status : Z).         (* the literal {status: n} *)

Record Res := mkRes {
  res_status : Z;
  res_cookies : list Cookie;
  res_cleared : list (string * CookieOptions);
  res_body : option Body
}.

(** The response object a handler starts from. *)
Definition fresh_res : Res := mkRes 200 [] [] None.

Inductive Exn :=
| ApiError (statusCode : Z) (message : string)   (* utils/ApiError.js *)
| JsError (name : string).                       (* any other thrown value *)

(** ** What the controllers import

    The model methods, the token library, the media upload and the id and
    number conversions are not part of the two controller files; a handler
    takes them as an environment. *)
Record Env := mkEnv {
  (* jwt.verify(token, REFRESH_TOKEN_SECRET): the [_id] member of the
     payload, or [None] when verify throws *)
  jwt_verify : JsVal -> option JsVal;
  (* the methods generateAccessToken, generateRefreshToken and
     isPasswordCorrect of the User and Guard models *)
  generateAccessToken : Model -> Doc -> string;
  generateRefreshToken : Model -> Doc -> string;
  isPasswordCorrect : Model -> Doc -> JsVal -> bool;
  (* utils/cloudinary.js: the upload response, or null *)
  uploadOnCloudinary : JsVal -> option Doc;
  (* the cast of a string to an ObjectId; mongoose.isValidObjectId holds
     exactly when the cast exists *)
  toObjectId : string -> option ObjectId;
  (* the ObjectIds generated during this request, in order *)
  newObjectId : nat -> ObjectId;
  (* ToNumber on strings and objects *)
  toNumberOther : JsVal -> JsNumber;
  (* JSON.parse: the parsed value, or [None] for a SyntaxError *)
  JSON_parse : JsVal -> option JsVal
}.

(** ** Handlers: state and exceptions *)

Record World := mkWorld {
  db : Db;
  res : Res;
  oids : nat      (* ObjectIds generated so far *)
}.

Definition Handler (A : Type) : Type := World -> World * (Exn + A).

Definition ret {A} (a : A) : Handler A := fun w => (w, inr a).

Definition throw {A} (e : Exn) : Handler A := fun w => (w, inl e).

Definition bind {A B} (m : Handler A) (k : A -> Handler B) : Handler B :=
  fun w =>
    match m w with
    | (w', inr a) => k a w'
    | (w', inl e) => (w', inl e)
    end.

(** [try { m } catch (error) { h error }]. *)
Definition try_catch {A} (m : Handler A) (h : Exn -> Handler A) : Handler A :=
  fun w =>
    match m w with
    | (w', inl e) => h e w'
    | r => r
    end.

Notation "'let*' x ':=' m 'in' k" := (bind m (fun x => k))
  (at level 10, x name, m at level 100, k at level 200).
Notation "m ';;' k" := (bind m (fun _ => k))
  (at level 100, k at level 200, right associativity).

(** [if (c) throw e]. *)
Definition throw_if (c : bool) (e : Exn) : Handler unit :=
  if c then throw e else ret tt.

Definition get_db : Handler Db := fun w => (w, inr (db w)).

Definition put_db (d : Db) : Handler unit :=
  fun w => (mkWorld d (res w) (oids w), inr tt).

Definition modify_res (f : Res -> Res) : Handler unit :=
  fun w => (mkWorld (db w) (f (res w)) (oids w), inr tt).

(** [run h db]: the handler on a database and a fresh response. *)
Definition run {A} (h : Handler A) (d : Db) : World * (Exn + A) :=
  h (mkWorld d fresh_res 0).

(** *** The response object *)

Definition res_cookie (name value : string) (o : CookieOptions)
  : Handler unit :=
  modify_res (fun r =>
    mkRes (res_status r) (res_cookies r ++ [mkCookie name value o])
          (res_cleared r) (res_body r)).

Definition res_clearCookie (name : string) (o : CookieOptions)
  : Handler unit :=
  modify_res (fun r =>
    mkRes (res_status r) (res_cookies r) (res_cleared r ++ [(name, o)])
          (res_body r)).

(** [res.status(n).json(b)]. *)
Definition res_status_json (n : Z) (b : Body) : Handler unit :=
  modify_res (fun r => mkRes n (res_cookies r) (res_cleared r) (Some b)).

(** The options of the [refreshToken] cookie and of the [accessToken]
    cookie. *)
Definition refreshCookieOptions : CookieOptions :=
  mkOpts true true "None" (Some (230 * 24 * 60 * 60 * 1000)%Z).

Definition accessCookieOptions : CookieOptions :=
  mkOpts true true "None" None.

(** The options both [clearCookie] calls of a logout pass. *)
Definition clearCookieOptions : CookieOptions :=
  mkOpts true true "None" None.

(** *** The request object *)

(** [req.cookies?.k]. *)
Definition cookie (req : Request) (k : string) : JsVal :=
  match req_cookies req with
  | Some c => field c k
  | None => VUndef
  end.

(** [req.params.k]; route parameters are strings. *)
Definition param (req : Request) (k : string) : option string :=
  req_params req !! k.

(** [req.files?.avatar?.[0]?.path]. *)
Definition avatarLocalPath (req : Request) : JsVal :=
  match req_files req with
  | Some fs =>
      match fs !! "avatar" with
      | Some (f :: _) => field f "path"
      | _ => VUndef
      end
  | None => VUndef
  end.

(** [req.user?._id]. *)
Definition user_id (req : Request) : JsVal :=
  match req_user req with
  | Some u => field u "_id"
  | None => VUndef
  end.

(** *** The database, through mongoose *)

Section Mongoose.
Context (E : Env).

Definition cast_id (v : JsVal) : option ObjectId :=
  match v with
  | VId i => Some i
  | VStr s => toObjectId E s
  | _ => None
  end.

(** [Model.findById(id)]: null for a null id, a CastError for a value
    that is no ObjectId. *)
Definition findById (m : Model) (id : JsVal) : Handler (option Doc) :=
  match id with
  | VUndef | VNull => ret None
  | _ =>
      match cast_id id with
      | Some i => let* d := get_db in ret (find_first (has_id i) (coll m d))
      | None => throw (JsError "CastError")
      end
  end.

Definition findOne (m : Model) (p : Doc -> bool) : Handler (option Doc) :=
  let* d := get_db in ret (find_first p (coll m d)).

Definition find (m : Model) (p : Doc -> bool) : Handler (list Doc) :=
  let* d := get_db in ret (List.filter p (coll m d)).

(** [new mongoose.Types.ObjectId()]. *)
Definition new_ObjectId : Handler ObjectId :=
  fun w => (mkWorld (db w) (res w) (S (oids w)), inr (newObjectId E (oids w))).

(** [Model.create(fields)]: the document gets an [_id] and is appended. *)
Definition create (m : Model) (fields : Doc) : Handler Doc :=
  let* i := new_ObjectId in
  let d := <["_id" := VId i]> fields in
  let* s := get_db in
  put_db (set_coll m (coll m s ++ [d]) s);;
  ret d.

(** [doc.save()] after the assignment [doc.k = ...]: the modified path is
    written to the stored document of the same [_id]. *)
Definition save_path (m : Model) (d : Doc) (k : string) : Handler unit :=
  match field d "_id" with
  | VId i =>
      let* s := get_db in
      put_db (set_coll m
                (update_first (has_id i) (fun old => <[k := field d k]> old)
                              (coll m s)) s)
  | _ => ret tt
  end.

(** [Model.findByIdAndUpdate(id, update, {new: true})]: the updated
    document, or null. The logout handlers call it without [{new: true}]
    and drop the result. *)
Definition findByIdAndUpdate (m : Model) (id : JsVal) (f : Doc -> Doc)
  : Handler (option Doc) :=
  match id with
  | VUndef | VNull => ret None
  | _ =>
      match cast_id id with
      | Some i =>
          let* s := get_db in
          match find_first (has_id i) (coll m s) with
          | Some old =>
              put_db (set_coll m (update_first (has_id i) f (coll m s)) s);;
              ret (Some (f old))
          | None => ret None
          end
      | None => throw (JsError "CastError")
      end
  end.

(** The filter [{$or: [{userName}, {email}]}]. *)
Definition userName_or_email (userName email : JsVal) (d : Doc) : bool :=
  cond_eq "userName" userName d || cond_eq "email" email d.

(** [s.toLowerCase()]: a TypeError when [s] is no string. *)
Definition toLowerCase (v : JsVal) : Handler JsVal :=
  match v with
  | VStr s => ret (VStr (lower s))
  | _ => throw (JsError "TypeError")
  end.

(** ToNumber. *)
Definition ToNumber (v : JsVal) : JsNumber :=
  match v with
  | VUndef => NaN
  | VNull => Fin 0
  | VBool b => if b then Fin 1 else Fin 0
  | VNum n => n
  | _ => toNumberOther E v
  end.

(** [a < b] and [a > b] when one side is a number. *)
Definition js_lt (a b : JsVal) : bool := num_lt (ToNumber a) (ToNumber b).
Definition js_gt (a b : JsVal) : bool := num_lt (ToNumber b) (ToNumber a).

End Mongoose.

(** [!p] for a route parameter. *)
Definition param_missing (p : option string) : bool :=
  match p with
  | None | Some EmptyString => true
  | Some _ => false
  end.

(** ** user.controller.js *)

Module UserController.
Section Controller.
Context (E : Env).

(** [generateAccessAndRefreshTokens], user.controller.js, lines 17-28. *)
Definition generateAccessAndRefreshTokens (userId : JsVal)
  : Handler (string * string) :=
  let* user := findById E User userId in
  match user with
  | None => throw (ApiError 404 "User not found")
  | Some user =>
      let accessToken := generateAccessToken E User user in
      let refreshToken := generateRefreshToken E User user in
      let user := <["refreshToken" := VStr refreshToken]> user in
      save_path User user "refreshToken";;
      ret (accessToken, refreshToken)
  end.

(** [registerUser], user.controller.js, lines 33-66. *)
Definition registerUser (req : Request) : Handler unit :=
  let userName := field (req_body req) "userName" in
  let fullName := field (req_body req) "fullName" in
  let email := field (req_body req) "email" in
  let password := field (req_body req) "password" in
  let role :=
    match field (req_body req) "role" with
    | VUndef => VStr "user"
    | r => r
    end in
  throw_if (negb (truthy userName) || negb (truthy fullName)
            || negb (truthy email) || negb (truthy password))
           (ApiError 400 "All fields are required");;
  let* existingUser := findOne User (userName_or_email userName email) in
  throw_if (bool_decide (is_Some existingUser))
           (ApiError 409 "User already exists");;
  throw_if (negb (truthy (avatarLocalPath req)))
           (ApiError 400 "Avatar image is required");;
  match uploadOnCloudinary E (avatarLocalPath req) with
  | None => throw (ApiError 500 "Failed to upload avatar")
  | Some avatar =>
      let* lowered := toLowerCase userName in
      let* user :=
        create E User
          (list_to_map [("userName", lowered); ("fullName", fullName);
                        ("email", email); ("password", password);
                        ("avatar", field avatar "url"); ("role", role)]) in
      let* createdUser := findById E User (field user "_id") in
      match hide_secrets <$> createdUser with
      | None => throw (ApiError 500 "User registration failed")
      | Some createdUser =>
          res_status_json 201
            (ApiResponse 201 (DDoc createdUser)
                         "User registered successfully")
      end
  end.

(** [loginUser], user.controller.js, lines 71-110. *)
Definition loginUser (req : Request) : Handler unit :=
  let email := field (req_body req) "email" in
  let password := field (req_body req) "password" in
  let userName := field (req_body req) "userName" in
  throw_if (negb (truthy email) && negb (truthy userName))
           (ApiError 400 "Provide either username or email");;
  let* user := findOne User (userName_or_email userName email) in
  match user with
  | None => throw (ApiError 404 "User not found")
  | Some user =>
      throw_if (negb (isPasswordCorrect E User user password))
               (ApiError 401 "Invalid credentials");;
      let* tokens := generateAccessAndRefreshTokens (field user "_id") in
      let accessToken := fst tokens in
      let refreshToken := snd tokens in
      res_cookie "refreshToken" refreshToken refreshCookieOptions;;
      res_cookie "accessToken" accessToken accessCookieOptions;;
      res_status_json 200
        (ApiResponse 200 (DLogin "user" user accessToken refreshToken)
                     "Login successful")
  end.

(** [logoutUser], user.controller.js, lines 115-130. [req.user._id] is read without a test: a TypeError when the
    auth middleware set no user. *)
Definition logoutUser (req : Request) : Handler unit :=
  match req_user req with
  | None => throw (JsError "TypeError")
  | Some u =>
      findByIdAndUpdate E User (field u "_id") (delete "refreshToken");;
      res_clearCookie "accessToken" clearCookieOptions;;
      res_clearCookie "refreshToken" clearCookieOptions;;
      res_status_json 200 (ApiResponse 200 DEmpty "User logged out")
  end.

(** The body of the [try] block of [getAccessToken]. *)
Definition refresh_tokens (incomingRefreshToken : JsVal) : Handler unit :=
  match jwt_verify E incomingRefreshToken with
  | None => throw (JsError "JsonWebTokenError")
  | Some decoded_id =>
      let* user := findById E User decoded_id in
      match user with
      | None => throw (ApiError 403 "Invalid or expired refresh token")
      | Some user =>
          throw_if (negb (strict_eq incomingRefreshToken
                                    (field user "refreshToken")))
                   (ApiError 403 "Invalid or expired refresh token");;
          let* tokens := generateAccessAndRefreshTokens (field user "_id") in
          let accessToken := fst tokens in
          let refreshToken := snd tokens in
          res_cookie "refreshToken" refreshToken refreshCookieOptions;;
          res_cookie "accessToken" accessToken accessCookieOptions;;
          res_status_json 200
            (ApiResponse 200 (DTokens accessToken refreshToken)
                         "Access token refreshed successfully")
      end
  end.

(** [getAccessToken], user.controller.js, lines 135-179. Everything after the first test runs inside [try];
    the [catch] throws 401 whatever was caught. *)
Definition getAccessToken (req : Request) : Handler unit :=
  let incomingRefreshToken :=
    js_or (cookie req "refreshToken") (field (req_body req) "refreshToken") in
  throw_if (negb (truthy incomingRefreshToken))
           (ApiError 401 "Unauthorized request");;
  try_catch (refresh_tokens incomingRefreshToken)
            (fun error => throw (ApiError 401 "Invalid refresh token")).

(** [getCurrentUser], user.controller.js, lines 184-190. *)
Definition getCurrentUser (req : Request) : Handler unit :=
  res_status_json 200
    (ApiResponse 200 (DReqUser (req_user req))
                 "Current user retrieved successfully").

(** [checkRefreshToken], user.controller.js, lines 195-201. *)
Definition checkRefreshToken (req : Request) : Handler unit :=
  let incomingRefreshToken :=
    js_or (cookie req "refreshToken") (field (req_body req) "refreshToken") in
  res_status_json (if truthy incomingRefreshToken then 200 else 401)
    (StatusOnly (if truthy incomingRefreshToken then 200 else 401)).

(** [authoriseGuard], user.controller.js, lines 207-237. A guardId that is no valid ObjectId is replaced by a
    new one. *)
Definition authoriseGuard (req : Request) : Handler unit :=
  let complain := field (req_body req) "complain" in
  throw_if (negb (truthy complain)) (ApiError 400 "You must provide feedback");;
  throw_if (param_missing (param req "guardId"))
           (ApiError 400 "Guard ID is missing");;
  let guardId := default EmptyString (param req "guardId") in
  let* guardId :=
    if bool_decide (is_Some (toObjectId E guardId))
    then ret (VStr guardId)
    else (let* i := new_ObjectId E in ret (VId i)) in
  let* guard := findById E Guard guardId in
  match guard with
  | None => throw (ApiError 404 "Guard not found")
  | Some guard =>
      let guard := <["isApproved" := VBool false]> guard in
      save_path Guard guard "isApproved";;
      let* comp :=
        create E Complain
          (list_to_map [("complain", complain); ("guard", guardId)]) in
      res_status_json 200
        (ApiResponse 200 (DDoc guard)
                     "Guard authorisation requested successfully")
  end.

(** [getUser], user.controller.js, lines 239-251. *)
Definition getUser (req : Request) : Handler unit :=
  throw_if (param_missing (param req "userName"))
           (ApiError 400 "Username is required");;
  let userName := default EmptyString (param req "userName") in
  let* user := findOne User (cond_eq "userName" (VStr (trim userName))) in
  match hide_secrets <$> user with
  | None => throw (ApiError 404 "User not found")
  | Some user =>
      res_status_json 200
        (ApiResponse 200 (DDoc user) "User retrieved successfully")
  end.

(** [appreciateGuard], user.controller.js, lines 253-283. *)
Definition appreciateGuard (req : Request) : Handler unit :=
  throw_if (negb (truthy (user_id req))) (ApiError 400 "Your ID is missing");;
  let message := field (req_body req) "message" in
  throw_if (negb (truthy message))
           (ApiError 400 "You must provide appreciation feedback");;
  let* user := findById E User (user_id req) in
  throw_if (negb (bool_decide (is_Some user))) (ApiError 400 "User not found");;
  throw_if (param_missing (param req "guardId"))
           (ApiError 400 "Guard ID is missing");;
  let guardId := VStr (default EmptyString (param req "guardId")) in
  let* guard := findById E Guard guardId in
  throw_if (negb (bool_decide (is_Some guard))) (ApiError 404 "Guard not found");;
  let* appreciation :=
    create E Appreciation
      (list_to_map [("message", message); ("guard", guardId)]) in
  res_status_json 200
    (ApiResponse 200 (DDoc appreciation) "Guard appreciated successfully").

End Controller.
End UserController.

(** ** guard.controller.js *)

(** [Array.isArray]. *)
Definition isArray (v : JsVal) : bool :=
  match v with
  | VArr _ => true
  | _ => false
  end.

(** The equality of a [$lookup] stage between a local and a foreign field:
    a missing field counts as null. *)
Definition lookup_key (o : option JsVal) : JsVal :=
  match o with
  | None | Some VUndef => VNull
  | Some v => v
  end.

Definition lookup_eq (a b : option JsVal) : bool :=
  bool_decide (lookup_key a = lookup_key b).

Module GuardController.
Section Controller.
Context (E : Env).

(** [generateAccessAndRefreshTokens], guard.controller.js, lines 10-21. *)
Definition generateAccessAndRefreshTokens (guardId : JsVal)
  : Handler (string * string) :=
  let* guard := findById E Guard guardId in
  match guard with
  | None => throw (ApiError 404 "Guard not found")
  | Some guard =>
      let accessToken := generateAccessToken E Guard guard in
      let refreshToken := generateRefreshToken E Guard guard in
      let guard := <["refreshToken" := VStr refreshToken]> guard in
      save_path Guard guard "refreshToken";;
      ret (accessToken, refreshToken)
  end.

(** The validation of [workHistory] in [registerGuard]. *)
Definition parse_workHistory (workHistory : JsVal) : Handler JsVal :=
  if truthy workHistory then
    try_catch
      (match JSON_parse E workHistory with
       | None => throw (JsError "SyntaxError")
       | Some parsed =>
           throw_if (negb (isArray parsed)) (JsError "Error");;
           ret parsed
       end)
      (fun error =>
         throw (ApiError 400
                  "Invalid workHistory format. Must be a JSON array."))
  else ret (VArr "[]").

(** [registerGuard], guard.controller.js, lines 23-91. *)
Definition registerGuard (req : Request) : Handler unit :=
  let userName := field (req_body req) "userName" in
  let fullName := field (req_body req) "fullName" in
  let email := field (req_body req) "email" in
  let password := field (req_body req) "password" in
  let residence := field (req_body req) "residence" in
  let description := field (req_body req) "description" in
  let age := field (req_body req) "age" in
  let workHistory := field (req_body req) "workHistory" in
  throw_if (negb (truthy userName) || negb (truthy fullName)
            || negb (truthy email) || negb (truthy password)
            || negb (truthy residence) || negb (truthy description)
            || negb (truthy age))
           (ApiError 400 "All fields are required");;
  let* existingGuard := findOne Guard (userName_or_email userName email) in
  throw_if (bool_decide (is_Some existingGuard))
           (ApiError 409 "Guard already exists");;
  throw_if (negb (truthy (avatarLocalPath req)))
           (ApiError 400 "Avatar image is required");;
  match uploadOnCloudinary E (avatarLocalPath req) with
  | None => throw (ApiError 500 "Failed to upload avatar")
  | Some avatar =>
      let* parsedWorkHistory := parse_workHistory workHistory in
      let* lowered := toLowerCase userName in
      let* guard :=
        create E Guard
          (list_to_map [("userName", lowered); ("fullName", fullName);
                        ("email", email); ("password", password);
                        ("avatar", field avatar "url");
                        ("residence", residence);
                        ("description", description); ("age", age);
                        ("workHistory", parsedWorkHistory)]) in
      let* createdGuard := findById E Guard (field guard "_id") in
      match hide_secrets <$> createdGuard with
      | None => throw (ApiError 500 "Guard registration failed")
      | Some createdGuard =>
          res_status_json 201
            (ApiResponse 201 (DDoc createdGuard)
                         "Guard registered successfully")
      end
  end.

(** [loginGuard], guard.controller.js, lines 93-132. *)
Definition loginGuard (req : Request) : Handler unit :=
  let email := field (req_body req) "email" in
  let password := field (req_body req) "password" in
  let userName := field (req_body req) "userName" in
  throw_if (negb (truthy email) && negb (truthy userName))
           (ApiError 400 "Provide either username or email");;
  let* guard := findOne Guard (userName_or_email userName email) in
  match guard with
  | None => throw (ApiError 404 "Guard not found")
  | Some guard =>
      throw_if (negb (isPasswordCorrect E Guard guard password))
               (ApiError 401 "Invalid credentials");;
      let* tokens := generateAccessAndRefreshTokens (field guard "_id") in
      let accessToken := fst tokens in
      let refreshToken := snd tokens in
      res_cookie "refreshToken" refreshToken refreshCookieOptions;;
      res_cookie "accessToken" accessToken accessCookieOptions;;
      res_status_json 200
        (ApiResponse 200 (DLogin "guard" guard accessToken refreshToken)
                     "Login successful")
  end.

(** [logoutGuard], guard.controller.js, lines 134-148. The [console.log] of the source has no effect on the
    response or the database. *)
Definition logoutGuard (req : Request) : Handler unit :=
  match req_user req with
  | None => throw (JsError "TypeError")
  | Some u =>
      findByIdAndUpdate E Guard (field u "_id") (delete "refreshToken");;
      res_clearCookie "accessToken" clearCookieOptions;;
      res_clearCookie "refreshToken" clearCookieOptions;;
      res_status_json 200 (ApiResponse 200 DEmpty "Guard logged out")
  end.

(** The body of the [try] block of [getAccessToken]. *)
Definition refresh_tokens (incomingRefreshToken : JsVal) : Handler unit :=
  match jwt_verify E incomingRefreshToken with
  | None => throw (JsError "JsonWebTokenError")
  | Some decoded_id =>
      let* guard := findById E Guard decoded_id in
      match guard with
      | None => throw (ApiError 403 "Invalid or expired refresh token")
      | Some guard =>
          throw_if (negb (strict_eq incomingRefreshToken
                                    (field guard "refreshToken")))
                   (ApiError 403 "Invalid or expired refresh token");;
          let* tokens := generateAccessAndRefreshTokens (field guard "_id") in
          let accessToken := fst tokens in
          let refreshToken := snd tokens in
          res_cookie "refreshToken" refreshToken refreshCookieOptions;;
          res_cookie "accessToken" accessToken accessCookieOptions;;
          res_status_json 200
            (ApiResponse 200 (DTokens accessToken refreshToken)
                         "Access token refreshed successfully")
      end
  end.

(** [getAccessToken], guard.controller.js, lines 150-194. As for users. *)
Definition getAccessToken (req : Request) : Handler unit :=
  let incomingRefreshToken :=
    js_or (cookie req "refreshToken") (field (req_body req) "refreshToken") in
  throw_if (negb (truthy incomingRefreshToken))
           (ApiError 401 "Unauthorized request");;
  try_catch (refresh_tokens incomingRefreshToken)
            (fun error => throw (ApiError 401 "Invalid refresh token")).

(** [getCurrentGuard], guard.controller.js, lines 196-202. *)
Definition getCurrentGuard (req : Request) : Handler unit :=
  res_status_json 200
    (ApiResponse 200 (DReqUser (req_user req))
                 "Current guard retrieved successfully").

(** [checkRefreshToken], guard.controller.js, lines 204-210. *)
Definition checkRefreshToken (req : Request) : Handler unit :=
  let incomingRefreshToken :=
    js_or (cookie req "refreshToken") (field (req_body req) "refreshToken") in
  res_status_json (if truthy incomingRefreshToken then 200 else 401)
    (StatusOnly (if truthy incomingRefreshToken then 200 else 401)).

(** [getGuard], guard.controller.js, lines 212-224. *)
Definition getGuard (req : Request) : Handler unit :=
  throw_if (param_missing (param req "userName"))
           (ApiError 400 "Username is required");;
  let userName := default EmptyString (param req "userName") in
  let* guard := findOne Guard (cond_eq "userName" (VStr (trim userName))) in
  match hide_secrets <$> guard with
  | None => throw (ApiError 404 "Guard not found")
  | Some guard =>
      res_status_json 200
        (ApiResponse 200 (DDoc guard) "Guard retrieved successfully")
  end.

(** [listAutherisedGuards], guard.controller.js, lines 226-243. *)
Definition listAutherisedGuards (req : Request) : Handler unit :=
  let* found := find Guard (cond_eq "isApproved" (VBool true)) in
  let authorisedGuards := hide_secrets <$> found in
  throw_if (bool_decide (length authorisedGuards = 0%nat))
           (ApiError 404 "No unauthorised guards found");;
  res_status_json 200
    (ApiResponse 200 (DDocs authorisedGuards)
                 "Authorised guards retrieved successfully").

(** The pipeline of [listUnassignedGuards] over the guards: [$lookup]
    of the locations whose [guard] is the guard's [_id], [$match] on none
    found, [$project] without password, refreshToken and
    assignedLocations. *)
Definition unassigned_pipeline (s : Db) : list Doc :=
  let assignedLocations (g : Doc) :=
    List.filter (fun l => lookup_eq (g !! "_id") (l !! "guard"))
                (locations s) in
  (fun g => delete "assignedLocations" (hide_secrets g))
    <$> List.filter (fun g => bool_decide (length (assignedLocations g) = 0%nat))
                    (guards s).

(** [listUnassignedGuards], guard.controller.js, lines 245-283. *)
Definition listUnassignedGuards (req : Request) : Handler unit :=
  let* s := get_db in
  let data := unassigned_pipeline s in
  throw_if (bool_decide (length data = 0%nat))
           (ApiError 404 "No unassigned guards found");;
  res_status_json 200
    (ApiResponse 200 (DDocs data)
                 "Unassigned guards retrieved successfully").

(** The pipeline of [listAuthorisedGuards] over the locations: [$lookup]
    of the guards whose [_id] is the location's [guard], [$unwind],
    [$match] on approved guards, [$project] without the guard's password
    and refreshToken. A pair is a location with its [guardDetails]. *)
Definition authorised_pipeline (s : Db) : list (Doc * Doc) :=
  let guardDetails (l : Doc) :=
    List.filter (fun g => lookup_eq (l !! "guard") (g !! "_id"))
                (guards s) in
  let unwound :=
    List.flat_map (fun l => (fun g => (l, g)) <$> guardDetails l)
                  (locations s) in
  (fun lg => (delete "guardDetails" (fst lg), hide_secrets (snd lg)))
    <$> List.filter (fun lg => cond_eq "isApproved" (VBool true) (snd lg))
                    unwound.

(** [listAuthorisedGuards], guard.controller.js, lines 285-320. *)
Definition listAuthorisedGuards (req : Request) : Handler unit :=
  let* s := get_db in
  let data := authorised_pipeline s in
  throw_if (bool_decide (length data = 0%nat))
           (ApiError 404 "No authorised guards found");;
  res_status_json 200
    (ApiResponse 200 (DJoined data)
                 "Authorised guards retrieved successfully").

(** [getSingleGuardAssignment], guard.controller.js, lines 322-343. *)
Definition getSingleGuardAssignment (req : Request) : Handler unit :=
  let guardId := user_id req in
  throw_if (negb (truthy guardId)) (ApiError 404 "NOT AUTHENTICATED");;
  let* deployment := find Location (cond_eq "guard" guardId) in
  throw_if (bool_decide (length deployment = 0%nat))
           (ApiError 404 "Deployment not found");;
  res_status_json 200 (ApiResponse 200 (DDocs deployment) "Found deployment").

(** [updateWorkPercent], guard.controller.js, lines 345-374. *)
Definition updateWorkPercent (req : Request) : Handler unit :=
  let guardId := user_id req in
  throw_if (negb (truthy guardId))
           (ApiError 404 "Guard not found or not authenticated");;
  let workPercent := field (req_body req) "workPercent" in
  throw_if (bool_decide (workPercent = VUndef)
            || js_lt E workPercent (num 0)
            || js_gt E workPercent (num 100))
           (ApiError 400 "Invalid work percent value (must be between 0-100)");;
  let* updatedGuard :=
    findByIdAndUpdate E Guard guardId (insert "workPercent" workPercent) in
  match hide_secrets <$> updatedGuard with
  | None => throw (ApiError 500 "Failed to update work percent")
  | Some updatedGuard =>
      res_status_json 200
        (ApiResponse 200 (DDoc updatedGuard)
                     "Work percent updated successfully")
  end.

End Controller.
End GuardController.

(** * Vocabulary of the properties *)

Open Scope Z_scope.

(** ** The two kinds of account

    The user and the guard controllers have the same registration, login
    and token handlers, each over its own collection. *)

Inductive Account := AUser | AGuard.

Definition model_of (k : Account) : Model :=
  match k with
  | AUser => User
  | AGuard => Guard
  end.

Definition getAccessToken_of (k : Account) : Env -> Request -> Handler unit :=
  match k with
  | AUser => UserController.getAccessToken
  | AGuard => GuardController.getAccessToken
  end.

Definition refresh_tokens_of (k : Account) : Env -> JsVal -> Handler unit :=
  match k with
  | AUser => UserController.refresh_tokens
  | AGuard => GuardController.refresh_tokens
  end.

Definition login_of (k : Account) : Env -> Request -> Handler unit :=
  match k with
  | AUser => UserController.loginUser
  | AGuard => GuardController.loginGuard
  end.

Definition register_of (k : Account) : Env -> Request -> Handler unit :=
  match k with
  | AUser => UserController.registerUser
  | AGuard => GuardController.registerGuard
  end.

Definition generate_of (k : Account)
  : Env -> JsVal -> Handler (string * string) :=
  match k with
  | AUser => UserController.generateAccessAndRefreshTokens
  | AGuard => GuardController.generateAccessAndRefreshTokens
  end.

(** The database after the refresh token [t] is written to the account
    [i] of collection [m]. *)
Definition rotate (m : Model) (i : ObjectId) (t : string) (s : Db) : Db :=
  set_coll m
    (update_first (has_id i) (fun old => <["refreshToken" := VStr t]> old)
                  (coll m s)) s.

(** ** Refresh tokens *)

(** The value the handlers read as [incomingRefreshToken]. *)
Definition incomingRefreshToken (req : Request) : JsVal :=
  js_or (cookie req "refreshToken") (field (req_body req) "refreshToken").

(** A request presents a refresh token when its cookies or its body hold
    one, that is a value that is not empty. *)
Definition presents_refresh_token (req : Request) : Prop :=
  truthy (cookie req "refreshToken") = true
  \/ truthy (field (req_body req) "refreshToken") = true.


(** The outcome of a token refresh for account [i] of collection [m]:
    status 200, the two cookies, both tokens in the body, and the refresh
    token written to the account. *)
Definition refreshed (m : Model) (i : ObjectId) (a t : string) (d : Db)
  : World * (Exn + unit) :=
  (mkWorld (rotate m i t d)
     (mkRes 200
        [mkCookie "refreshToken" t refreshCookieOptions;
         mkCookie "accessToken" a accessCookieOptions]
        []
        (Some (ApiResponse 200 (DTokens a t)
                           "Access token refreshed successfully")))
     0%nat,
   inr tt).

(** ** Login *)



(** Two documents that differ at most in their refresh token. *)
Definition same_but_refreshToken (a b : Doc) : Prop :=
  forall f, f <> "refreshToken" -> a !! f = b !! f.

(** Two databases that differ at most in the refresh tokens of the
    documents of collection [m]. *)
Definition only_refreshToken_changed (m : Model) (d d' : Db) : Prop :=
  Forall2 same_but_refreshToken (coll m d) (coll m d')
  /\ forall m', m' <> m -> coll m' d' = coll m' d.

(** ** Registration *)

(** The fields [registerUser] and [registerGuard] require. *)
Definition required_fields (k : Account) : list string :=
  match k with
  | AUser => ["userName"; "fullName"; "email"; "password"]
  | AGuard => ["userName"; "fullName"; "email"; "password"; "residence";
               "description"; "age"]
  end.








(** ** The approval flag *)

(** The stored approval flag of guard [i]. *)
Definition approval (i : ObjectId) (d : Db) : JsVal :=
  match find_first (has_id i) (guards d) with
  | Some g => field g "isApproved"
  | None => VUndef
  end.

(** The database after guard [i] is marked unapproved and the complaint
    [c] is recorded. *)
Definition unapprove (i : ObjectId) (c : Doc) (d : Db) : Db :=
  let d1 :=
    set_coll Guard
      (update_first (has_id i) (fun old => <["isApproved" := VBool false]> old)
                    (guards d)) d in
  set_coll Complain (complains d1 ++ [c]) d1.

(** ** Work percent *)

(** The rational of an integer literal. *)
Definition qz (z : Z) : Qc := Q2Qc (inject_Z z).

Definition invalid_work_percent : Exn :=
  ApiError 400 "Invalid work percent value (must be between 0-100)".

(** The database after [workPercent] of guard [i] is set to [v]. *)
Definition set_workPercent (i : ObjectId) (v : JsVal) (d : Db) : Db :=
  set_coll Guard (update_first (has_id i) (insert "workPercent" v) (guards d)) d.

(** The range check of [updateWorkPercent] lets a value through. *)
Definition passes_range_check (E : Env) (v : JsVal) : bool :=
  negb (bool_decide (v = VUndef) || js_lt E v (num 0) || js_gt E v (num 100)).

(** ** The controllers as a whole *)

Inductive Endpoint :=
| RegisterUser | LoginUser | LogoutUser | UserGetAccessToken | GetCurrentUser
| UserCheckRefreshToken | AuthoriseGuard | GetUser | AppreciateGuard
| RegisterGuard | LoginGuard | LogoutGuard | GuardGetAccessToken
| GetCurrentGuard | GuardCheckRefreshToken | GetGuard | ListAutherisedGuards
| ListUnassignedGuards | ListAuthorisedGuards | GetSingleGuardAssignment
| UpdateWorkPercent.

(** Every handler the two controller files export. *)
Definition controller (E : Env) (ep : Endpoint) : Request -> Handler unit :=
  match ep with
  | RegisterUser => UserController.registerUser E
  | LoginUser => UserController.loginUser E
  | LogoutUser => UserController.logoutUser E
  | UserGetAccessToken => UserController.getAccessToken E
  | GetCurrentUser => UserController.getCurrentUser
  | UserCheckRefreshToken => UserController.checkRefreshToken
  | AuthoriseGuard => UserController.authoriseGuard E
  | GetUser => UserController.getUser
  | AppreciateGuard => UserController.appreciateGuard E
  | RegisterGuard => GuardController.registerGuard E
  | LoginGuard => GuardController.loginGuard E
  | LogoutGuard => GuardController.logoutGuard E
  | GuardGetAccessToken => GuardController.getAccessToken E
  | GetCurrentGuard => GuardController.getCurrentGuard
  | GuardCheckRefreshToken => GuardController.checkRefreshToken
  | GetGuard => GuardController.getGuard
  | ListAutherisedGuards => GuardController.listAutherisedGuards
  | ListUnassignedGuards => GuardController.listUnassignedGuards
  | ListAuthorisedGuards => GuardController.listAuthorisedGuards
  | GetSingleGuardAssignment => GuardController.getSingleGuardAssignment
  | UpdateWorkPercent => GuardController.updateWorkPercent E
  end.





(** ** What the read operations show *)

(** Two documents that agree on everything but password and refreshToken. *)
Definition secrets_apart (a b : Doc) : Prop := hide_secrets a = hide_secrets b.

(** Two databases whose accounts agree on everything but their password
    and refresh token. *)
Definition low_equiv (d1 d2 : Db) : Prop :=
  Forall2 secrets_apart (users d1) (users d2)
  /\ Forall2 secrets_apart (guards d1) (guards d2)
  /\ locations d1 = locations d2.

Definition no_secrets (d : Doc) : Prop :=
  d !! "password" = None /\ d !! "refreshToken" = None.

(** The account documents in a response body. *)
Definition returned_accounts (b : option Body) : list Doc :=
  match b with
  | Some (ApiResponse _ (DDoc d) _) => [d]
  | Some (ApiResponse _ (DDocs l) _) => l
  | Some (ApiResponse _ (DJoined l) _) => snd <$> l
  | _ => []
  end.

Definition is_read (ep : Endpoint) : bool :=
  match ep with
  | GetUser | GetGuard | ListAutherisedGuards | ListUnassignedGuards
  | ListAuthorisedGuards => true
  | _ => false
  end.

(** ** Worked requests

    One small deployment: the user alice, the guard bob, and an environment
    whose tokens and ids are fixed strings. *)

Definition sampleEnv : Env := {|
  jwt_verify := fun v =>
    if bool_decide (v = VStr "rt-old") then Some (VId 1%positive)
    else if bool_decide (v = VStr "rt-stale") then Some (VId 1%positive)
    else None;
  generateAccessToken := fun _ _ => "at-new";
  generateRefreshToken := fun _ _ => "rt-new";
  isPasswordCorrect := fun _ u p => bool_decide (u !! "password" = Some p);
  uploadOnCloudinary := fun _ => Some {[ "url" := VStr "https://media/a.png" ]};
  toObjectId := fun s =>
    if bool_decide (s = "000000000000000000000002") then Some 2%positive
    else None;
  newObjectId := fun n => Pos.of_nat (1000 + n)%nat;
  toNumberOther := fun _ => NaN;
  JSON_parse := fun v =>
    if bool_decide (v = VStr "[]") then Some (VArr "[]") else None
|}.

Definition alice : Doc :=
  list_to_map [("_id", VId 1%positive); ("userName", VStr "alice");
               ("fullName", VStr "Alice A"); ("email", VStr "alice@ojass.in");
               ("password", VStr "wonderland"); ("role", VStr "user");
               ("refreshToken", VStr "rt-old")].

Definition bob : Doc :=
  list_to_map [("_id", VId 2%positive); ("userName", VStr "bob");
               ("fullName", VStr "Bob B"); ("email", VStr "bob@ojass.in");
               ("password", VStr "builder"); ("isApproved", VBool false);
               ("workPercent", num 40); ("refreshToken", VStr "rt-bob")].

Definition sampleDb : Db := mkDb [alice] [bob] [] [] [].

(** The same deployment after both accounts changed their password and
    logged in again. *)
Definition sampleDb' : Db :=
  mkDb [<["password" := VStr "looking-glass"]> alice]
       [<["refreshToken" := VStr "rt-bob-2"]> bob] [] [] [].

Definition request (cookies body : Doc) (params : gmap string string)
           (user : option Doc) : Request :=
  mkReq (Some cookies) body params None user.

(** alice's browser asks for new tokens. *)
Definition refreshRequest : Request :=
  request {[ "refreshToken" := VStr "rt-old" ]} ∅ ∅ None.

(** The same with a token that verifies but was rotated away. *)
Definition staleRequest : Request :=
  request {[ "refreshToken" := VStr "rt-stale" ]} ∅ ∅ None.


Definition rightLogin : Request :=
  request ∅ (list_to_map [("userName", VStr "alice");
                          ("password", VStr "wonderland")]) ∅ None.



(** A complaint about bob. *)
Definition complaintRequest : Request :=
  request ∅ {[ "complain" := VStr "asleep on duty" ]}
          {[ "guardId" := "000000000000000000000002" ]} (Some alice).

(** A request with nothing in it. *)
Definition emptyRequest : Request := request ∅ ∅ ∅ None.

(** bob sends [{"workPercent": null}]. *)
Definition nullPercentRequest : Request :=
  request ∅ {[ "workPercent" := VNull ]} ∅ (Some bob).

(** Someone looks up bob. *)
Definition lookupRequest : Request :=
  request ∅ ∅ {[ "userName" := "bob" ]} None.

(** A registration as "Alice", with an avatar. *)
Definition caseRegistration : Request :=
  mkReq (Some ∅)
        (list_to_map [("userName", VStr "Alice");
                      ("fullName", VStr "Alice Again");
                      ("email", VStr "again@ojass.in");
                      ("password", VStr "rabbit")])
        ∅
        (Some {[ "avatar" := [ ({[ "path" := VStr "/tmp/a.png" ]} : Doc) ] ]})
        None.

(** The approval flag of guard [i] was flipped between [d] and [d']. *)
Definition toggled (i : ObjectId) (d d' : Db) : Prop :=
  exists b, approval i d = VBool b /\ approval i d' = VBool (negb b).

(** The stored work percent of guard [i]. *)
Definition stored_workPercent (i : ObjectId) (d : Db) : JsVal :=
  match find_first (has_id i) (guards d) with
  | Some g => field g "workPercent"
  | None => VUndef
  end.

(** ** Sessions, and what a handler leaves behind *)

Definition logout_of (k : Account) : Env -> Request -> Handler unit :=
  match k with
  | AUser => UserController.logoutUser
  | AGuard => GuardController.logoutGuard
  end.

Definition logged_out (k : Account) : string :=
  match k with
  | AUser => "User logged out"
  | AGuard => "Guard logged out"
  end.



Definition invalid_refresh_token : Exn := ApiError 401 "Invalid refresh token".

(** The database after the refresh token of account [i] of collection [m]
    is unset. *)
Definition unset_refreshToken (m : Model) (i : ObjectId) (d : Db) : Db :=
  set_coll m (update_first (has_id i) (delete "refreshToken") (coll m d)) d.





(** The handlers that set cookies. *)
Definition sets_cookies (ep : Endpoint) : bool :=
  match ep with
  | LoginUser | LoginGuard | UserGetAccessToken | GuardGetAccessToken => true
  | _ => false
  end.

Definition protected_cookie (c : Cookie) : Prop :=
  httpOnly (c_options c) = true /\ secure (c_options c) = true
  /\ sameSite (c_options c) = "None".

(** The handlers that only read. *)
Definition is_readonly (ep : Endpoint) : bool :=
  match ep with
  | GetCurrentUser | UserCheckRefreshToken | GetUser | GetCurrentGuard
  | GuardCheckRefreshToken | GetGuard | ListAutherisedGuards
  | ListUnassignedGuards | ListAuthorisedGuards | GetSingleGuardAssignment =>
      true
  | _ => false
  end.

(** The fields that say whose a document is and how its owner logs in. *)
Definition identity_fields : list string :=
  ["_id"; "userName"; "email"; "password"].

Definition same_identity (a b : Doc) : Prop :=
  Forall (fun k => a !! k = b !! k) identity_fields.

(** Every document of [l] is still in [l'], at its place and with its
    identity; [l'] may have more documents after them. *)
Definition kept (l l' : list Doc) : Prop :=
  exists l1 l2, l' = (l1 ++ l2)%list /\ Forall2 same_identity l l1.

(** Two documents that differ at most in field [k]. *)
Definition same_but (k : string) (a b : Doc) : Prop :=
  forall f, f <> k -> a !! f = b !! f.

(** ** More of the sample deployment *)


(** An approved guard and her post. *)
Definition carol : Doc :=
  list_to_map [("_id", VId 3); ("userName", VStr "carol");
               ("fullName", VStr "Carol C"); ("email", VStr "carol@ojass.in");
               ("password", VStr "christmas"); ("isApproved", VBool true);
               ("refreshToken", VStr "rt-carol")].

Definition post : Doc :=
  list_to_map [("_id", VId 10); ("guard", VId 3); ("name", VStr "Gate 2")].

Definition fieldDb : Db := mkDb [alice] [bob; carol] [post] [] [].

Definition logoutRequest : Request := request ∅ ∅ ∅ (Some alice).



Definition badIdComplaint : Request :=
  request ∅ {[ "complain" := VStr "asleep on duty" ]}
          {[ "guardId" := "bob" ]} (Some alice).

Definition badIdAppreciation : Request :=
  request ∅ {[ "message" := VStr "well done" ]}
          {[ "guardId" := "bob" ]} (Some alice).


Definition halfPercentRequest : Request :=
  request ∅ {[ "workPercent" := num 50 ]} ∅ (Some bob).

Definition carolRequest : Request := request ∅ ∅ ∅ (Some carol).


(** * Tactics *)

(** Unfolds the handler combinators, and nothing of the maps below them. *)
Ltac hstep :=
  repeat (progress (
    cbv beta iota zeta delta
      [run bind ret throw throw_if try_catch get_db put_db modify_res
       res_cookie res_clearCookie res_status_json findOne find
       db res oids fst snd];
    cbn [negb andb orb app res_status res_cookies res_cleared res_body
         fresh_res])).


(** Unfolds the handlers and the database calls under them. *)
Ltac hunfold :=
  cbv delta
    [controller
     UserController.registerUser UserController.loginUser
     UserController.logoutUser UserController.getAccessToken
     UserController.getCurrentUser UserController.checkRefreshToken
     UserController.authoriseGuard UserController.getUser
     UserController.appreciateGuard UserController.refresh_tokens
     UserController.generateAccessAndRefreshTokens
     GuardController.registerGuard GuardController.loginGuard
     GuardController.logoutGuard GuardController.getAccessToken
     GuardController.getCurrentGuard GuardController.checkRefreshToken
     GuardController.getGuard GuardController.listAutherisedGuards
     GuardController.listUnassignedGuards GuardController.listAuthorisedGuards
     GuardController.getSingleGuardAssignment GuardController.updateWorkPercent
     GuardController.refresh_tokens GuardController.parse_workHistory
     GuardController.generateAccessAndRefreshTokens
     findById findByIdAndUpdate save_path create new_ObjectId toLowerCase].

(** Case analysis on an innermost test of the handler under evaluation. *)
Ltac hcase :=
  match goal with
  | |- context [match ?x with _ => _ end] =>
      lazymatch x with
      | context [match _ with _ => _ end] => fail
      | _ => destruct x eqn:?
      end
  end.

(** Evaluates a handler along every path. *)
Ltac hcrush := hunfold; hstep; repeat (hcase; hstep).

(** Closes a goal about the sample deployment by evaluation. *)
Ltac by_eval :=
  vm_compute;
  first [ reflexivity
        | left; reflexivity
        | right; reflexivity
        | repeat constructor ].

(** * Properties *)

(** ** Values and collections *)

Lemma truthy_js_or (a b : JsVal) : truthy (js_or a b) = truthy a || truthy b.
Proof. unfold js_or. destruct (truthy a) eqn:Ha; simpl; auto. Qed.

Lemma find_first_Some (p : Doc -> bool) (c : list Doc) (u : Doc) :
  find_first p c = Some u -> p u = true /\ In u c.
Proof. intros H. apply List.find_some in H. tauto. Qed.



Lemma has_id_field (i : ObjectId) (d : Doc) :
  has_id i d = true -> field d "_id" = VId i.
Proof.
  unfold has_id, field. intros H. apply bool_decide_eq_true in H.
  rewrite H. reflexivity.
Qed.

Lemma has_id_insert (i : ObjectId) (k : string) (v : JsVal) (d : Doc) :
  k <> "_id" -> has_id i (<[k := v]> d) = has_id i d.
Proof.
  intros Hk. unfold has_id. rewrite lookup_insert_ne by done. reflexivity.
Qed.

Lemma find_first_update (p : Doc -> bool) (f : Doc -> Doc) (c : list Doc)
      (u : Doc) :
  find_first p c = Some u -> p (f u) = true ->
  find_first p (update_first p f c) = Some (f u).
Proof.
  unfold find_first. induction c as [|d r IH]; simpl; [discriminate|].
  destruct (p d) eqn:Hd.
  - intros [= ->] Hf. simpl. rewrite Hf. reflexivity.
  - intros Hr Hf. simpl. rewrite Hd. auto.
Qed.

Lemma update_first_length (p : Doc -> bool) (f : Doc -> Doc) (c : list Doc) :
  length (update_first p f c) = length c.
Proof.
  induction c as [|d r IH]; simpl; [reflexivity|].
  destruct (p d); simpl; congruence.
Qed.

(** A document-wise relation that [f] respects holds between a collection
    and its update. *)
Lemma update_first_Forall2 (R : Doc -> Doc -> Prop) (p : Doc -> bool)
      (f : Doc -> Doc) (c : list Doc) :
  (forall d, R d d) -> (forall d, p d = true -> R d (f d)) ->
  Forall2 R c (update_first p f c).
Proof.
  intros Hrefl Hf. induction c as [|d r IH]; simpl; [constructor|].
  destruct (p d) eqn:Hd.
  - constructor; [auto|]. clear IH. induction r; constructor; auto.
  - constructor; auto.
Qed.

Lemma field_insert_eq (d : Doc) (k : string) (v : JsVal) :
  field (<[k := v]> d) k = v.
Proof. unfold field. rewrite lookup_insert_eq. reflexivity. Qed.

Lemma field_insert_ne (d : Doc) (k k' : string) (v : JsVal) :
  k <> k' -> field (<[k := v]> d) k' = field d k'.
Proof.
  intros H. unfold field. rewrite lookup_insert_ne by done. reflexivity.
Qed.

Lemma coll_set_coll (m : Model) (c : list Doc) (s : Db) :
  coll m (set_coll m c s) = c.
Proof. destruct m; reflexivity. Qed.

Lemma coll_set_coll_ne (m m' : Model) (c : list Doc) (s : Db) :
  m <> m' -> coll m' (set_coll m c s) = coll m' s.
Proof. destruct m, m'; intros H; try reflexivity; congruence. Qed.

Lemma findById_found (E : Env) (m : Model) (v : JsVal) (i : ObjectId)
      (u : Doc) (s : Db) (r : Res) (n : nat) :
  cast_id E v = Some i -> find_first (has_id i) (coll m s) = Some u ->
  findById E m v (mkWorld s r n) = (mkWorld s r n, inr (Some u)).
Proof.
  intros Hc Hf. unfold findById. rewrite Hc.
  destruct v; try discriminate Hc; hstep; rewrite Hf; reflexivity.
Qed.

Lemma findById_missing (E : Env) (m : Model) (v : JsVal) (i : ObjectId)
      (s : Db) (r : Res) (n : nat) :
  cast_id E v = Some i -> find_first (has_id i) (coll m s) = None ->
  findById E m v (mkWorld s r n) = (mkWorld s r n, inr None).
Proof.
  intros Hc Hf. unfold findById. rewrite Hc.
  destruct v; try discriminate Hc; hstep; rewrite Hf; reflexivity.
Qed.

(** [findById] reads: it leaves the world as it is. *)
Lemma findById_reads (E : Env) (m : Model) (v : JsVal) (w : World) :
  fst (findById E m v w) = w.
Proof.
  destruct w as [s r n]. unfold findById.
  destruct v; try reflexivity; destruct (cast_id E _); reflexivity.
Qed.

(** ** Token generation *)

Lemma generate_found (E : Env) (k : Account) (i : ObjectId) (u : Doc)
      (s : Db) (r : Res) (n : nat) :
  find_first (has_id i) (coll (model_of k) s) = Some u ->
  generate_of k E (VId i) (mkWorld s r n) =
    (mkWorld (rotate (model_of k) i (generateRefreshToken E (model_of k) u) s)
             r n,
     inr (generateAccessToken E (model_of k) u,
          generateRefreshToken E (model_of k) u)).
Proof.
  intros Hf.
  destruct k; cbn [generate_of model_of] in *;
    unfold UserController.generateAccessAndRefreshTokens,
           GuardController.generateAccessAndRefreshTokens;
    unfold findById, cast_id; hstep; rewrite Hf;
    unfold save_path; rewrite field_insert_ne by done;
    rewrite (has_id_field i u) by (apply (find_first_Some _ _ _ Hf));
    hstep; rewrite field_insert_eq; reflexivity.
Qed.

Lemma rotate_stored (m : Model) (i : ObjectId) (t : string) (u : Doc)
      (s : Db) :
  find_first (has_id i) (coll m s) = Some u ->
  find_first (has_id i) (coll m (rotate m i t s))
  = Some (<["refreshToken" := VStr t]> u).
Proof.
  intros Hf. unfold rotate. rewrite coll_set_coll.
  apply (find_first_update _ (fun old => <["refreshToken" := VStr t]> old));
    [assumption|].
  rewrite has_id_insert by done. apply (find_first_Some _ _ _ Hf).
Qed.

(** ** Refresh tokens *)

Lemma presents_incoming (req : Request) :
  presents_refresh_token req <-> truthy (incomingRefreshToken req) = true.
Proof.
  unfold presents_refresh_token, incomingRefreshToken.
  rewrite truthy_js_or, orb_true_iff. reflexivity.
Qed.


(** C1. [getAccessToken], for users and for guards: when the request
    presents a refresh token that verifies, names an account of the
    collection and is the refresh token stored on it, the handler returns
    with status 200, the access and refresh tokens generated from the account
    are set as HTTP-only cookies, and the generated refresh token is stored
    on the account document in place of the old one. *)
Theorem getAccessToken_rotates (E : Env) (k : Account) (req : Request)
        (d : Db) (dec : JsVal) (i : ObjectId) (u : Doc) :
  presents_refresh_token req ->
  jwt_verify E (incomingRefreshToken req) = Some dec ->
  cast_id E dec = Some i ->
  find_first (has_id i) (coll (model_of k) d) = Some u ->
  strict_eq (incomingRefreshToken req) (field u "refreshToken") = true ->
  let a := generateAccessToken E (model_of k) u in
  let t := generateRefreshToken E (model_of k) u in
  run (getAccessToken_of k E req) d = refreshed (model_of k) i a t d
  /\ find_first (has_id i) (coll (model_of k) (rotate (model_of k) i t d))
     = Some (<["refreshToken" := VStr t]> u)
  /\ Forall (fun c => httpOnly (c_options c) = true)
            (res_cookies (res (fst (refreshed (model_of k) i a t d)))).
Proof.
  intros Hp Hv Hc Hf He a t. apply presents_incoming in Hp.
  split; [|split].
  - destruct k; cbn [getAccessToken_of model_of] in *;
      unfold UserController.getAccessToken, GuardController.getAccessToken;
      fold (incomingRefreshToken req); unfold run; hstep; rewrite Hp; hstep;
      unfold UserController.refresh_tokens, GuardController.refresh_tokens;
      rewrite Hv; hstep.
    + rewrite (findById_found E User dec i u) by assumption.
      rewrite He. hstep.
      rewrite (has_id_field i u) by (apply (find_first_Some _ _ _ Hf)).
      rewrite (generate_found E AUser i u) by assumption.
      hstep. reflexivity.
    + rewrite (findById_found E Guard dec i u) by assumption.
      rewrite He. hstep.
      rewrite (has_id_field i u) by (apply (find_first_Some _ _ _ Hf)).
      rewrite (generate_found E AGuard i u) by assumption.
      hstep. reflexivity.
  - apply rotate_stored. assumption.
  - unfold refreshed. cbn. repeat constructor.
Qed.

(** When the [try] block of [getAccessToken] returns, the status is 200. *)
Lemma refresh_tokens_returns_200 (E : Env) (k : Account) (tok : JsVal)
      (w : World) :
  snd (refresh_tokens_of k E tok w) = inr tt ->
  res_status (res (fst (refresh_tokens_of k E tok w))) = 200.
Proof.
  destruct w as [s r n].
  destruct k; cbn [refresh_tokens_of]; hcrush;
    cbn [fst snd res res_status]; intros H;
    first [discriminate H | reflexivity].
Qed.

(** C8. [getAccessToken], for users and for guards: once the request
    presents a refresh token, every exception is the 401 error "Invalid
    refresh token", and a return carries status 200. In particular a token
    that verifies and names an account whose stored refresh token is another
    one makes the [try] block throw 403 "Invalid or expired refresh token",
    and the handler throws the 401 error in its place, the database and the
    response left as they were. *)
Theorem getAccessToken_failures_are_401 (E : Env) (k : Account)
        (req : Request) (d : Db) :
  presents_refresh_token req ->
  (forall e, snd (run (getAccessToken_of k E req) d) = inl e ->
             e = ApiError 401 "Invalid refresh token")
  /\ (snd (run (getAccessToken_of k E req) d) = inr tt ->
      res_status (res (fst (run (getAccessToken_of k E req) d))) = 200)
  /\ (forall dec i u,
        jwt_verify E (incomingRefreshToken req) = Some dec ->
        cast_id E dec = Some i ->
        find_first (has_id i) (coll (model_of k) d) = Some u ->
        strict_eq (incomingRefreshToken req) (field u "refreshToken") = false ->
        snd (run (refresh_tokens_of k E (incomingRefreshToken req)) d)
        = inl (ApiError 403 "Invalid or expired refresh token")
        /\ run (getAccessToken_of k E req) d
           = (mkWorld d fresh_res 0, inl (ApiError 401 "Invalid refresh token"))).
Proof.
  intros Hp. apply presents_incoming in Hp.
  assert (Hrun : run (getAccessToken_of k E req) d
                 = try_catch (refresh_tokens_of k E (incomingRefreshToken req))
                     (fun _ => throw (ApiError 401 "Invalid refresh token"))
                     (mkWorld d fresh_res 0)).
  { destruct k; cbn [getAccessToken_of refresh_tokens_of];
      unfold UserController.getAccessToken, GuardController.getAccessToken;
      fold (incomingRefreshToken req); unfold run; hstep; rewrite Hp; hstep;
      reflexivity. }
  split; [|split].
  - intros e. rewrite Hrun. unfold try_catch, throw.
    destruct (refresh_tokens_of k E _ _) as [w' [e'|[]]]; cbn [snd];
      intros [= <-]; reflexivity.
  - rewrite Hrun. unfold try_catch, throw.
    pose proof (refresh_tokens_returns_200 E k (incomingRefreshToken req)
                  (mkWorld d fresh_res 0)) as H200.
    destruct (refresh_tokens_of k E _ _) as [w' [e'|[]]]; cbn [fst snd] in *;
      [discriminate|]. intros _. apply H200. reflexivity.
  - intros dec i u Hv Hc Hf Hne.
    assert (Hbody : run (refresh_tokens_of k E (incomingRefreshToken req)) d
                    = (mkWorld d fresh_res 0,
                       inl (ApiError 403 "Invalid or expired refresh token"))).
    { destruct k; cbn [refresh_tokens_of model_of] in *;
        unfold UserController.refresh_tokens, GuardController.refresh_tokens,
               run;
        rewrite Hv; hstep.
      - rewrite (findById_found E User dec i u) by assumption.
        rewrite Hne. hstep. reflexivity.
      - rewrite (findById_found E Guard dec i u) by assumption.
        rewrite Hne. hstep. reflexivity. }
    split; [rewrite Hbody; reflexivity|].
    rewrite Hrun. unfold run in Hbody. unfold try_catch. rewrite Hbody.
    reflexivity.
Qed.

(** ** Login *)

(** Whatever the id, [generateAccessAndRefreshTokens] either throws and
    leaves the world as it was, or finds the account, writes the refresh
    token it generated to it and returns both tokens. *)
Lemma generate_cases (E : Env) (k : Account) (v : JsVal) (s : Db) (r : Res)
      (n : nat) :
  (exists e, generate_of k E v (mkWorld s r n) = (mkWorld s r n, inl e))
  \/ (exists i u,
        find_first (has_id i) (coll (model_of k) s) = Some u
        /\ generate_of k E v (mkWorld s r n)
           = (mkWorld (rotate (model_of k) i
                              (generateRefreshToken E (model_of k) u) s) r n,
              inr (generateAccessToken E (model_of k) u,
                   generateRefreshToken E (model_of k) u))).
Proof.
  assert (Hid : forall i,
             (exists e, generate_of k E (VId i) (mkWorld s r n)
                        = (mkWorld s r n, inl e))
             \/ (exists u,
                   find_first (has_id i) (coll (model_of k) s) = Some u
                   /\ generate_of k E (VId i) (mkWorld s r n)
                      = (mkWorld (rotate (model_of k) i
                                   (generateRefreshToken E (model_of k) u) s)
                                 r n,
                         inr (generateAccessToken E (model_of k) u,
                              generateRefreshToken E (model_of k) u)))).
  { intros i.
    destruct (find_first (has_id i) (coll (model_of k) s)) as [u|] eqn:Hf.
    - right. exists u. split; [reflexivity|]. apply generate_found.
      assumption.
    - left. destruct k; eexists;
        cbn [generate_of model_of] in *;
        unfold UserController.generateAccessAndRefreshTokens,
               GuardController.generateAccessAndRefreshTokens;
        unfold findById, cast_id; hstep; rewrite Hf; reflexivity. }
  destruct v;
    try (destruct (Hid i) as [?|(u & ? & ?)]; [left; assumption|];
         right; exists i, u; split; assumption);
    try (left; destruct k; eexists; cbn [generate_of];
         unfold UserController.generateAccessAndRefreshTokens,
                GuardController.generateAccessAndRefreshTokens;
         unfold findById, cast_id; hstep; reflexivity).
  (* a string: cast it first *)
  destruct (toObjectId E s0) as [i|] eqn:Hc.
  - destruct (Hid i) as [[e He]|(u & Hf & Hg)].
    + left. exists e. rewrite <- He.
      destruct k; cbn [generate_of];
        unfold UserController.generateAccessAndRefreshTokens,
               GuardController.generateAccessAndRefreshTokens;
        unfold findById, cast_id; rewrite Hc; reflexivity.
    + right. exists i, u. split; [assumption|]. rewrite <- Hg.
      destruct k; cbn [generate_of];
        unfold UserController.generateAccessAndRefreshTokens,
               GuardController.generateAccessAndRefreshTokens;
        unfold findById, cast_id; rewrite Hc; reflexivity.
  - left. destruct k; eexists; cbn [generate_of];
      unfold UserController.generateAccessAndRefreshTokens,
             GuardController.generateAccessAndRefreshTokens;
      unfold findById, cast_id; rewrite Hc; hstep; reflexivity.
Qed.



Lemma rotate_frame (m : Model) (i : ObjectId) (t : string) (d : Db) :
  only_refreshToken_changed m d (rotate m i t d).
Proof.
  unfold only_refreshToken_changed, rotate. split.
  - rewrite coll_set_coll. apply update_first_Forall2.
    + intros x f _. reflexivity.
    + intros x _ f Hf. rewrite lookup_insert_ne by congruence. reflexivity.
  - intros m' Hm. apply coll_set_coll_ne. congruence.
Qed.

(** C7. [loginUser] and [loginGuard]: a login that succeeds changes the
    database in one place, the refresh token of one account of its
    collection; every other field of every document (password, role,
    isApproved, workPercent, avatar, ...) and every other collection are as
    before. *)
Theorem login_changes_only_refreshToken (E : Env) (k : Account)
        (req : Request) (d : Db) :
  snd (run (login_of k E req) d) = inr tt ->
  (exists i t,
      db (fst (run (login_of k E req) d)) = rotate (model_of k) i t d)
  /\ only_refreshToken_changed (model_of k) d
                               (db (fst (run (login_of k E req) d))).
Proof.
  intros Hok.
  assert (H : exists i t,
             db (fst (run (login_of k E req) d)) = rotate (model_of k) i t d).
  { revert Hok.
    destruct k; cbn [login_of model_of];
      unfold UserController.loginUser, GuardController.loginGuard, run;
      hstep;
      (destruct (negb (truthy (field (req_body req) "email")) && _);
       hstep; [discriminate|]);
      (destruct (find_first _ _) as [u|]; hstep; [|discriminate]);
      (destruct (isPasswordCorrect E _ u _); hstep; [|discriminate]).
    - destruct (generate_cases E AUser (field u "_id") d fresh_res 0)
        as [[e He]|(i & u' & _ & Hg)]; cbn [generate_of model_of] in *.
      + rewrite He. hstep. discriminate.
      + rewrite Hg. hstep. intros _. eauto.
    - destruct (generate_cases E AGuard (field u "_id") d fresh_res 0)
        as [[e He]|(i & u' & _ & Hg)]; cbn [generate_of model_of] in *.
      + rewrite He. hstep. discriminate.
      + rewrite Hg. hstep. intros _. eauto. }
  split; [exact H|].
  destruct H as (i & t & ->). apply rotate_frame.
Qed.

(** ** Registration *)

Lemma cond_eq_truthy (k : string) (q : JsVal) (d : Doc) :
  truthy q = true -> cond_eq k q d = bool_decide (d !! k = Some q).
Proof. destruct q; simpl; intros H; try discriminate; reflexivity. Qed.



(** The first check of a registration: a request that lacks a required
    field is refused with 400, whatever the database holds. *)
Lemma register_missing_field_400 (E : Env) (k : Account) (req : Request)
      (d : Db) :
  Exists (fun f => truthy (field (req_body req) f) = false)
         (required_fields k) ->
  run (register_of k E req) d
  = (mkWorld d fresh_res 0, inl (ApiError 400 "All fields are required")).
Proof.
  intros Hex.
  destruct k; cbn [register_of required_fields] in *;
    unfold UserController.registerUser, GuardController.registerGuard, run;
    hstep;
    match goal with
    | |- context [if ?b then _ else _] =>
        assert (Hb : b = true);
        [|rewrite Hb; hstep; reflexivity]
    end;
    repeat match goal with
           | H : Exists _ (_ :: _) |- _ =>
               apply Exists_cons in H; destruct H as [H|H];
               [rewrite H; cbn [negb orb]; rewrite ?orb_true_r; reflexivity|]
           | H : Exists _ [] |- _ => apply Exists_nil in H; destruct H
           end.
Qed.





(** ** The approval flag *)

Lemma approval_unapprove (i : ObjectId) (c g : Doc) (d : Db) :
  find_first (has_id i) (guards d) = Some g ->
  approval i (unapprove i c d) = VBool false.
Proof.
  intros Hf. unfold approval, unapprove. cbn [set_coll guards].
  rewrite (find_first_update _ (fun old => <["isApproved" := VBool false]> old)
             _ g Hf).
  - apply field_insert_eq.
  - rewrite has_id_insert by done. apply (find_first_Some _ _ _ Hf).
Qed.

(** C5, as the code has it. [authoriseGuard] on an existing guard, named by
    a valid id and with a complaint in the body, stores [false] as the
    guard's approval flag whatever the flag was, records the complaint and
    answers 200 with the guard. *)
Theorem authoriseGuard_unapproves (E : Env) (req : Request) (d : Db)
        (s : string) (i : ObjectId) (g : Doc) :
  truthy (field (req_body req) "complain") = true ->
  param req "guardId" = Some s ->
  s <> EmptyString ->
  toObjectId E s = Some i ->
  find_first (has_id i) (guards d) = Some g ->
  let complaint :=
    <["_id" := VId (newObjectId E 0)]>
      (list_to_map [("complain", field (req_body req) "complain");
                    ("guard", VStr s)] : Doc) in
  run (UserController.authoriseGuard E req) d
  = (mkWorld (unapprove i complaint d)
       (mkRes 200 [] []
          (Some (ApiResponse 200 (DDoc (<["isApproved" := VBool false]> g))
                             "Guard authorisation requested successfully")))
       1,
     inr tt)
  /\ approval i (unapprove i complaint d) = VBool false.
Proof.
  intros Hc Hp Hs Hid Hf complaint.
  split; [|apply (approval_unapprove i complaint g d Hf)].
  unfold UserController.authoriseGuard, run. hstep.
  rewrite Hc, Hp. hstep.
  assert (Hm : param_missing (Some s) = false) by (destruct s; [congruence | reflexivity]).
  rewrite Hm. hstep. cbn [default]. unfold id.
  rewrite Hid. rewrite bool_decide_eq_true_2 by eauto. hstep.
  rewrite (findById_found E Guard (VStr s) i g) by assumption.
  unfold save_path. rewrite field_insert_ne by done.
  rewrite (has_id_field i g) by (apply (find_first_Some _ _ _ Hf)).
  hstep. rewrite field_insert_eq.
  unfold create, new_ObjectId. hstep. reflexivity.
Qed.

(** ** Work percent *)

Lemma num_qz (z : Z) : num z = VNum (Fin (qz z)).
Proof. reflexivity. Qed.

Lemma passes_range_check_number (E : Env) (q : Qc) :
  passes_range_check E (VNum (Fin q)) = true <-> (qz 0 <= q /\ q <= qz 100)%Qc.
Proof.
  unfold passes_range_check, js_lt, js_gt. rewrite !num_qz.
  cbn [ToNumber num_lt]. rewrite bool_decide_eq_false_2 by discriminate.
  cbn [orb]. rewrite negb_true_iff, orb_false_iff.
  rewrite !bool_decide_eq_false. split.
  - intros [H1 H2]. split; apply Qcnot_lt_le; assumption.
  - intros [H1 H2]. split; apply Qcle_not_lt; assumption.
Qed.

(** What [updateWorkPercent] does once the caller is authenticated as the
    existing guard [i]: 400 when the check refuses the value, and otherwise
    the value stored and the guard returned without its secrets. *)
Lemma updateWorkPercent_run (E : Env) (req : Request) (d : Db)
      (i : ObjectId) (g : Doc) :
  user_id req = VId i ->
  find_first (has_id i) (guards d) = Some g ->
  let v := field (req_body req) "workPercent" in
  run (GuardController.updateWorkPercent E req) d
  = if passes_range_check E v
    then (mkWorld (set_workPercent i v d)
            (mkRes 200 [] []
               (Some (ApiResponse 200
                        (DDoc (hide_secrets (<["workPercent" := v]> g)))
                        "Work percent updated successfully")))
            0%nat,
          inr tt)
    else (mkWorld d fresh_res 0, inl invalid_work_percent).
Proof.
  intros Hu Hf v. unfold GuardController.updateWorkPercent, run.
  rewrite Hu. fold v. unfold passes_range_check. cbn [truthy].
  destruct (bool_decide (v = VUndef) || js_lt E v (num 0)
            || js_gt E v (num 100)); hstep; [reflexivity|].
  unfold findByIdAndUpdate, cast_id. hstep. cbn [coll]. rewrite Hf.
  hstep. reflexivity.
Qed.

(** X16. [updateWorkPercent]: on numbers the handler does what its message
    says: a finite number is refused with 400 exactly when it is below 0 or
    above 100, an absent value is refused, and a number from 0 to 100 is
    stored and returned without password and refreshToken. *)
Lemma updateWorkPercent_numbers (E : Env) (req : Request) (d : Db)
      (i : ObjectId) (g : Doc) :
  user_id req = VId i ->
  find_first (has_id i) (guards d) = Some g ->
  (field (req_body req) "workPercent" = VUndef ->
   run (GuardController.updateWorkPercent E req) d
   = (mkWorld d fresh_res 0, inl invalid_work_percent))
  /\ (forall q, field (req_body req) "workPercent" = VNum (Fin q) ->
        (run (GuardController.updateWorkPercent E req) d
         = (mkWorld d fresh_res 0, inl invalid_work_percent)
         <-> ~ (qz 0 <= q /\ q <= qz 100)%Qc)
        /\ ((qz 0 <= q /\ q <= qz 100)%Qc ->
            run (GuardController.updateWorkPercent E req) d
            = (mkWorld (set_workPercent i (VNum (Fin q)) d)
                 (mkRes 200 [] []
                    (Some (ApiResponse 200
                       (DDoc (hide_secrets (<["workPercent" := VNum (Fin q)]> g)))
                       "Work percent updated successfully")))
                 0%nat,
               inr tt))).
Proof.
  intros Hu Hf. pose proof (updateWorkPercent_run E req d i g Hu Hf) as Hrun.
  cbv zeta in Hrun. split.
  - intros Hv. rewrite Hrun, Hv. reflexivity.
  - intros q Hv. rewrite Hrun, Hv.
    pose proof (passes_range_check_number E q) as Hq.
    destruct (passes_range_check E (VNum (Fin q))).
    + split; [split|reflexivity].
      * discriminate.
      * intros Hn. exfalso. apply Hn, Hq. reflexivity.
    + split; [split|].
      * intros _ Hr. apply Hq in Hr. discriminate.
      * reflexivity.
      * intros Hr. apply Hq in Hr. discriminate.
Qed.

(** A value that is not [undefined] and converts to NaN passes the range
    check: both comparisons are false. *)
Lemma NaN_passes_range_check (E : Env) (v : JsVal) :
  v <> VUndef -> ToNumber E v = NaN -> passes_range_check E v = true.
Proof.
  intros Hv Hn. unfold passes_range_check, js_lt, js_gt.
  rewrite Hn, bool_decide_eq_false_2 by assumption. reflexivity.
Qed.

(** ** The controllers as a whole *)




(** ** What the read operations show *)

Lemma hide_secrets_lookup (d : Doc) (k : string) :
  k <> "password" -> k <> "refreshToken" -> hide_secrets d !! k = d !! k.
Proof.
  intros H1 H2. unfold hide_secrets.
  rewrite !lookup_delete_ne by congruence. reflexivity.
Qed.

Lemma hide_secrets_no_secrets (d : Doc) : no_secrets (hide_secrets d).
Proof.
  unfold no_secrets, hide_secrets. split.
  - rewrite lookup_delete_ne by done. apply lookup_delete_eq.
  - apply lookup_delete_eq.
Qed.

Lemma secrets_apart_lookup (a b : Doc) (k : string) :
  secrets_apart a b -> k <> "password" -> k <> "refreshToken" ->
  a !! k = b !! k.
Proof.
  intros H H1 H2. rewrite <- (hide_secrets_lookup a k), <- (hide_secrets_lookup b k)
    by assumption.
  rewrite H. reflexivity.
Qed.

Lemma cond_eq_low (k : string) (q : JsVal) (a b : Doc) :
  k <> "password" -> k <> "refreshToken" -> secrets_apart a b ->
  cond_eq k q a = cond_eq k q b.
Proof.
  intros H1 H2 H. unfold cond_eq.
  rewrite (secrets_apart_lookup a b k H H1 H2). reflexivity.
Qed.

Section Related.
Context {A B : Type} (R : A -> B -> Prop).

Lemma filter_Forall2 (p : A -> bool) (q : B -> bool) (l1 : list A)
      (l2 : list B) :
  (forall a b, R a b -> p a = q b) -> Forall2 R l1 l2 ->
  Forall2 R (List.filter p l1) (List.filter q l2).
Proof.
  intros Hpq H. induction H as [|a b l1 l2 Hab _ IH]; simpl; [constructor|].
  rewrite (Hpq a b Hab). destruct (q b); [constructor|]; assumption.
Qed.

Lemma find_Forall2 (p : A -> bool) (q : B -> bool) (l1 : list A)
      (l2 : list B) :
  (forall a b, R a b -> p a = q b) -> Forall2 R l1 l2 ->
  option_Forall2 R (List.find p l1) (List.find q l2).
Proof.
  intros Hpq H. induction H as [|a b l1 l2 Hab _ IH]; simpl; [constructor|].
  rewrite (Hpq a b Hab). destruct (q b); [constructor|]; assumption.
Qed.

Lemma fmap_Forall2_eq {C : Type} (f : A -> C) (g : B -> C) (l1 : list A)
      (l2 : list B) :
  (forall a b, R a b -> f a = g b) -> Forall2 R l1 l2 -> f <$> l1 = g <$> l2.
Proof.
  intros Hfg H. induction H as [|a b l1 l2 Hab _ IH]; [reflexivity|].
  rewrite !fmap_cons, (Hfg a b Hab), IH. reflexivity.
Qed.

Lemma Forall2_same_length (l1 : list A) (l2 : list B) :
  Forall2 R l1 l2 -> length l1 = length l2.
Proof. induction 1; simpl; congruence. Qed.

End Related.

(** The two aggregation pipelines read the guards through fields other than
    password and refreshToken. *)
Lemma unassigned_pipeline_low (d1 d2 : Db) :
  low_equiv d1 d2 ->
  GuardController.unassigned_pipeline d1 = GuardController.unassigned_pipeline d2.
Proof.
  intros (_ & Hg & Hl). unfold GuardController.unassigned_pipeline.
  rewrite Hl.
  apply (fmap_Forall2_eq secrets_apart).
  - intros a b Hab. unfold secrets_apart in Hab. rewrite Hab. reflexivity.
  - apply filter_Forall2; [|assumption].
    intros a b Hab. rewrite (secrets_apart_lookup a b "_id" Hab) by done.
    reflexivity.
Qed.

Lemma authorised_pipeline_low (d1 d2 : Db) :
  low_equiv d1 d2 ->
  GuardController.authorised_pipeline d1 = GuardController.authorised_pipeline d2.
Proof.
  intros (_ & Hg & Hl). unfold GuardController.authorised_pipeline.
  rewrite Hl.
  apply (fmap_Forall2_eq (fun x y => fst x = fst y
                                     /\ secrets_apart (snd x) (snd y))).
  - intros [l g] [l' g'] [Hfst Hsnd]; simpl in *. subst l'.
    unfold secrets_apart in Hsnd. rewrite Hsnd. reflexivity.
  - apply filter_Forall2.
    + intros [l g] [l' g'] [_ Hsnd]. cbn [snd] in *.
      apply cond_eq_low; [done|done|assumption].
    + clear Hl. induction (locations d2) as [|l ls IH]; simpl; [constructor|].
      apply Forall2_app; [|exact IH].
      apply Forall2_fmap.
      eapply Forall2_impl.
      * apply (filter_Forall2 secrets_apart); [|exact Hg].
        intros a b Hab.
        rewrite (secrets_apart_lookup a b "_id" Hab) by done. reflexivity.
      * intros a b Hab. simpl. split; [reflexivity|assumption].
Qed.

Lemma find_first_low (k : string) (q : JsVal) (c1 c2 : list Doc) :
  k <> "password" -> k <> "refreshToken" ->
  Forall2 secrets_apart c1 c2 ->
  hide_secrets <$> find_first (cond_eq k q) c1
  = hide_secrets <$> find_first (cond_eq k q) c2.
Proof.
  intros H1 H2 H. unfold find_first.
  destruct (find_Forall2 secrets_apart (cond_eq k q) (cond_eq k q) c1 c2)
    as [a b Hab|]; [|assumption| |reflexivity].
  - intros a b Hab. apply cond_eq_low; assumption.
  - simpl. f_equal. exact Hab.
Qed.

Lemma filter_low (k : string) (q : JsVal) (c1 c2 : list Doc) :
  k <> "password" -> k <> "refreshToken" ->
  Forall2 secrets_apart c1 c2 ->
  hide_secrets <$> List.filter (cond_eq k q) c1
  = hide_secrets <$> List.filter (cond_eq k q) c2.
Proof.
  intros H1 H2 H. apply (fmap_Forall2_eq secrets_apart).
  - intros a b Hab. exact Hab.
  - apply filter_Forall2; [|assumption].
    intros a b Hab. apply cond_eq_low; assumption.
Qed.

Lemma Forall_no_secrets_hide (c : list Doc) :
  Forall no_secrets (hide_secrets <$> c).
Proof.
  apply Forall_fmap, Forall_forall. intros d _. apply hide_secrets_no_secrets.
Qed.

Lemma unassigned_pipeline_no_secrets (d : Db) :
  Forall no_secrets (GuardController.unassigned_pipeline d).
Proof.
  unfold GuardController.unassigned_pipeline.
  apply Forall_fmap, Forall_forall. intros g _. simpl.
  destruct (hide_secrets_no_secrets g) as [Hp Hr].
  split; rewrite lookup_delete_ne by done; assumption.
Qed.

Lemma authorised_pipeline_no_secrets (d : Db) :
  Forall no_secrets (snd <$> GuardController.authorised_pipeline d).
Proof.
  unfold GuardController.authorised_pipeline.
  rewrite <- list_fmap_compose.
  apply Forall_fmap, Forall_forall. intros lg _. simpl.
  apply hide_secrets_no_secrets.
Qed.

(** C10. [getUser], [getGuard], [listAutherisedGuards],
    [listUnassignedGuards] and [listAuthorisedGuards]: no account document
    in the response has a password or refreshToken field, and the whole
    outcome (result, status, cookies, body) is the same on two databases
    whose accounts differ only in their stored passwords and refresh
    tokens. *)
Theorem reads_hide_secrets (E : Env) (ep : Endpoint) (req : Request)
        (d1 d2 : Db) :
  is_read ep = true ->
  low_equiv d1 d2 ->
  snd (run (controller E ep req) d1) = snd (run (controller E ep req) d2)
  /\ res (fst (run (controller E ep req) d1))
     = res (fst (run (controller E ep req) d2))
  /\ Forall no_secrets
       (returned_accounts
          (res_body (res (fst (run (controller E ep req) d1))))).
Proof.
  intros Hr Hlow. pose proof Hlow as (Hu & Hg & Hl).
  destruct ep; try discriminate; clear Hr; cbn [controller].
  - (* getUser *)
    unfold UserController.getUser. hstep.
    destruct (param_missing (param req "userName")); hstep;
      [repeat split; constructor|].
    cbn [coll].
    rewrite (find_first_low "userName" _ (users d1) (users d2)) by done.
    destruct (hide_secrets <$> find_first _ (users d2)) as [u|] eqn:Hf; hstep;
      [|repeat split; constructor].
    repeat split. cbn [returned_accounts]. constructor; [|constructor].
    destruct (find_first _ (users d2)); [|discriminate].
    injection Hf as <-. apply hide_secrets_no_secrets.
  - (* getGuard *)
    unfold GuardController.getGuard. hstep.
    destruct (param_missing (param req "userName")); hstep;
      [repeat split; constructor|].
    cbn [coll].
    rewrite (find_first_low "userName" _ (guards d1) (guards d2)) by done.
    destruct (hide_secrets <$> find_first _ (guards d2)) as [u|] eqn:Hf; hstep;
      [|repeat split; constructor].
    repeat split. cbn [returned_accounts]. constructor; [|constructor].
    destruct (find_first _ (guards d2)); [|discriminate].
    injection Hf as <-. apply hide_secrets_no_secrets.
  - (* listAutherisedGuards *)
    unfold GuardController.listAutherisedGuards. hstep. cbn [coll].
    rewrite (filter_low "isApproved" _ (guards d1) (guards d2)) by done.
    destruct (bool_decide _); hstep; [repeat split; constructor|].
    repeat split. cbn [returned_accounts]. apply Forall_no_secrets_hide.
  - (* listUnassignedGuards *)
    unfold GuardController.listUnassignedGuards. hstep.
    rewrite (unassigned_pipeline_low d1 d2 Hlow).
    destruct (bool_decide _); hstep; [repeat split; constructor|].
    repeat split. cbn [returned_accounts].
    apply unassigned_pipeline_no_secrets.
  - (* listAuthorisedGuards *)
    unfold GuardController.listAuthorisedGuards. hstep.
    rewrite (authorised_pipeline_low d1 d2 Hlow).
    destruct (bool_decide _); hstep; [repeat split; constructor|].
    repeat split. cbn [returned_accounts].
    apply authorised_pipeline_no_secrets.
Qed.

(** * Worked requests *)

(** The refresh of alice's tokens. *)
Lemma getAccessToken_rotates_witness :
  presents_refresh_token refreshRequest
  /\ run (getAccessToken_of AUser sampleEnv refreshRequest) sampleDb
     = refreshed User 1 "at-new" "rt-new" sampleDb
  /\ find_first (has_id 1) (users (rotate User 1 "rt-new" sampleDb))
     = Some (<["refreshToken" := VStr "rt-new"]> alice).
Proof.
  assert (Hp : presents_refresh_token refreshRequest) by by_eval.
  split; [exact Hp|].
  destruct (getAccessToken_rotates sampleEnv AUser refreshRequest sampleDb
              (VId 1) 1 alice Hp) as (Hrun & Hstored & _);
    [by_eval | by_eval | by_eval | by_eval |].
  split; [exact Hrun | exact Hstored].
Defined.

(** A stale token: 403 inside, 401 outside. *)
Lemma getAccessToken_failures_are_401_witness :
  presents_refresh_token staleRequest
  /\ snd (run (refresh_tokens_of AUser sampleEnv
                 (incomingRefreshToken staleRequest)) sampleDb)
     = inl (ApiError 403 "Invalid or expired refresh token")
  /\ run (getAccessToken_of AUser sampleEnv staleRequest) sampleDb
     = (mkWorld sampleDb fresh_res 0, inl (ApiError 401 "Invalid refresh token")).
Proof.
  assert (Hp : presents_refresh_token staleRequest) by by_eval.
  split; [exact Hp|].
  destruct (getAccessToken_failures_are_401 sampleEnv AUser staleRequest
              sampleDb Hp) as (_ & _ & Hstale).
  apply (Hstale (VId 1) 1%positive alice); by_eval.
Defined.


(** alice logs in: her refresh token changes, nothing else does. *)
Lemma login_changes_only_refreshToken_witness :
  snd (run (login_of AUser sampleEnv rightLogin) sampleDb) = inr tt
  /\ only_refreshToken_changed User sampleDb
       (db (fst (run (login_of AUser sampleEnv rightLogin) sampleDb))).
Proof.
  assert (Hok : snd (run (login_of AUser sampleEnv rightLogin) sampleDb)
                = inr tt) by by_eval.
  split; [exact Hok|].
  apply (login_changes_only_refreshToken sampleEnv AUser rightLogin sampleDb Hok).
Defined.



(** The lookup takes the userName as given and the creation lowers it:
    "Alice" passes the lookup although alice is stored, and the controller
    creates a second document named alice. Only a uniqueness constraint of
    the collection, which is no part of the controllers, can stop it. *)
Example register_lookup_is_case_sensitive :
  snd (run (UserController.registerUser sampleEnv caseRegistration) sampleDb)
  = inr tt
  /\ (fun u => field u "userName")
       <$> users (db (fst (run (UserController.registerUser sampleEnv
                                  caseRegistration) sampleDb)))
     = [VStr "alice"; VStr "alice"].
Proof. split; by_eval. Qed.

(** A complaint about bob marks him unapproved. *)
Lemma authoriseGuard_unapproves_witness :
  find_first (has_id 2) (guards sampleDb) = Some bob
  /\ snd (run (UserController.authoriseGuard sampleEnv complaintRequest)
              sampleDb) = inr tt
  /\ approval 2
       (db (fst (run (UserController.authoriseGuard sampleEnv complaintRequest)
                     sampleDb)))
     = VBool false.
Proof.
  assert (Hf : find_first (has_id 2) (guards sampleDb) = Some bob) by by_eval.
  split; [exact Hf|].
  destruct (authoriseGuard_unapproves sampleEnv complaintRequest sampleDb
              "000000000000000000000002" 2 bob) as [Hrun Happ];
    [by_eval | by_eval | discriminate | by_eval | exact Hf |].
  rewrite Hrun. split; [reflexivity | exact Happ].
Defined.

(** C5 as stated fails: bob is unapproved before the call and unapproved
    after it; his flag is not flipped. *)
Lemma authoriseGuard_does_not_toggle :
  approval 2 sampleDb = VBool false
  /\ approval 2
       (db (fst (run (UserController.authoriseGuard sampleEnv complaintRequest)
                     sampleDb)))
     = VBool false
  /\ ~ toggled 2 sampleDb
       (db (fst (run (UserController.authoriseGuard sampleEnv complaintRequest)
                     sampleDb))).
Proof.
  assert (H0 : approval 2 sampleDb = VBool false) by by_eval.
  assert (H1 : approval 2
                 (db (fst (run (UserController.authoriseGuard sampleEnv
                                  complaintRequest) sampleDb)))
               = VBool false) by by_eval.
  split; [exact H0|]. split; [exact H1|].
  intros (b & Hb & Hb'). rewrite H0 in Hb. rewrite H1 in Hb'.
  injection Hb as <-. discriminate Hb'.
Qed.



(** C4 fails on the code. bob sends [{"workPercent": null}]: null is not
    [undefined] and compares as 0, so the range check lets it through, null
    is written to bob's document and the answer is 200. *)
Theorem updateWorkPercent_accepts_null (E : Env) :
  passes_range_check E VNull = true
  /\ run (GuardController.updateWorkPercent E nullPercentRequest) sampleDb
     = (mkWorld (set_workPercent 2 VNull sampleDb)
          (mkRes 200 [] []
             (Some (ApiResponse 200
                      (DDoc (hide_secrets (<["workPercent" := VNull]> bob)))
                      "Work percent updated successfully")))
          0%nat,
        inr tt)
  /\ stored_workPercent 2 (set_workPercent 2 VNull sampleDb) = VNull.
Proof.
  assert (Hpass : passes_range_check E VNull = true) by by_eval.
  split; [exact Hpass|]. split; [|by_eval].
  rewrite (updateWorkPercent_run E nullPercentRequest sampleDb 2 bob);
    [|by_eval|by_eval].
  replace (field (req_body nullPercentRequest) "workPercent") with VNull
    by by_eval.
  rewrite Hpass. reflexivity.
Qed.

(** bob's document is all a lookup shows of him, whatever his password and
    refresh token are. *)
Lemma reads_hide_secrets_witness :
  low_equiv sampleDb sampleDb'
  /\ snd (run (controller sampleEnv GetGuard lookupRequest) sampleDb)
     = snd (run (controller sampleEnv GetGuard lookupRequest) sampleDb')
  /\ res (fst (run (controller sampleEnv GetGuard lookupRequest) sampleDb))
     = res (fst (run (controller sampleEnv GetGuard lookupRequest) sampleDb'))
  /\ Forall no_secrets
       (returned_accounts
          (res_body (res (fst (run (controller sampleEnv GetGuard lookupRequest)
                                   sampleDb))))).
Proof.
  assert (Hlow : low_equiv sampleDb sampleDb').
  { repeat split; repeat constructor; by_eval. }
  split; [exact Hlow|].
  apply (reads_hide_secrets sampleEnv GetGuard lookupRequest sampleDb sampleDb'
           eq_refl Hlow).
Defined.

(** The login response, unlike the read operations, embeds the document as
    selected for the password check: alice's stored password and her
    previous refresh token are in it. *)
Example login_embeds_selected_document :
  res_body (res (fst (run (login_of AUser sampleEnv rightLogin) sampleDb)))
  = Some (ApiResponse 200 (DLogin "user" alice "at-new" "rt-new")
                      "Login successful")
  /\ alice !! "password" = Some (VStr "wonderland")
  /\ alice !! "refreshToken" = Some (VStr "rt-old").
Proof. repeat split; by_eval. Qed.

(** The comparisons of the range check on values that are no numbers. *)
Example null_compares_as_zero (E : Env) :
  js_lt E VNull (num 0) = false /\ js_gt E VNull (num 100) = false
  /\ js_lt E VUndef (num 0) = false /\ js_gt E VUndef (num 100) = false
  /\ js_lt E (num (-1)) (num 0) = true /\ js_gt E (num 101) (num 100) = true
  /\ js_lt E (num 0) (num 0) = false /\ js_gt E (num 100) (num 100) = false.
Proof. repeat split; by_eval. Qed.

(** * Sessions, registrations, lists, and what no handler does

    Logout, the composition of login, refresh and logout, what a
    registration leaves behind, the guard lists, and what no handler ever
    does. *)

(** ** Lemmas *)

Lemma field_delete_eq (d : Doc) (k : string) : field (delete k d) k = VUndef.
Proof. unfold field. rewrite lookup_delete_eq. reflexivity. Qed.

Lemma has_id_delete (i : ObjectId) (k : string) (d : Doc) :
  k <> "_id" -> has_id i (delete k d) = has_id i d.
Proof.
  intros Hk. unfold has_id. rewrite lookup_delete_ne by done. reflexivity.
Qed.



Lemma strict_eq_undefined (v : JsVal) :
  truthy v = true -> strict_eq v VUndef = false.
Proof.
  destruct v as [| | |[]| | | |]; cbn [truthy strict_eq]; intros H;
    first [reflexivity | discriminate H].
Qed.


Lemma unset_frame (m : Model) (i : ObjectId) (d : Db) :
  only_refreshToken_changed m d (unset_refreshToken m i d).
Proof.
  unfold only_refreshToken_changed, unset_refreshToken. split.
  - rewrite coll_set_coll. apply update_first_Forall2.
    + intros x f _. reflexivity.
    + intros x _ f Hf. rewrite lookup_delete_ne by congruence. reflexivity.
  - intros m' Hm. apply coll_set_coll_ne. congruence.
Qed.

Lemma unset_stored (m : Model) (i : ObjectId) (acc : Doc) (d : Db) :
  find_first (has_id i) (coll m d) = Some acc ->
  find_first (has_id i) (coll m (unset_refreshToken m i d))
  = Some (delete "refreshToken" acc).
Proof.
  intros Hf. unfold unset_refreshToken. rewrite coll_set_coll.
  apply (find_first_update _ (delete "refreshToken")); [assumption|].
  rewrite has_id_delete by done. apply (find_first_Some _ _ _ Hf).
Qed.

Lemma logout_run (E : Env) (k : Account) (req : Request) (d : Db)
      (u acc : Doc) (i : ObjectId) :
  req_user req = Some u ->
  field u "_id" = VId i ->
  find_first (has_id i) (coll (model_of k) d) = Some acc ->
  run (logout_of k E req) d
  = (mkWorld (unset_refreshToken (model_of k) i d)
       (mkRes 200 []
          [("accessToken", clearCookieOptions);
           ("refreshToken", clearCookieOptions)]
          (Some (ApiResponse 200 DEmpty (logged_out k))))
       0%nat,
     inr tt).
Proof.
  intros Hu Hid Hf.
  destruct k; cbn [logout_of model_of logged_out] in *;
    unfold UserController.logoutUser, GuardController.logoutGuard, run;
    rewrite Hu, Hid; unfold findByIdAndUpdate, cast_id; hstep;
    rewrite Hf; hstep; reflexivity.
Qed.


(** A refresh token that is not the stored one is refused. *)
Lemma getAccessToken_refused (E : Env) (k : Account) (req : Request)
      (d : Db) (dec : JsVal) (i : ObjectId) (u : Doc) :
  truthy (incomingRefreshToken req) = true ->
  jwt_verify E (incomingRefreshToken req) = Some dec ->
  cast_id E dec = Some i ->
  find_first (has_id i) (coll (model_of k) d) = Some u ->
  strict_eq (incomingRefreshToken req) (field u "refreshToken") = false ->
  run (getAccessToken_of k E req) d
  = (mkWorld d fresh_res 0, inl invalid_refresh_token).
Proof.
  intros Hp Hv Hc Hf He.
  destruct k; cbn [getAccessToken_of model_of] in *;
    unfold UserController.getAccessToken, GuardController.getAccessToken;
    fold (incomingRefreshToken req); unfold run; hstep; rewrite Hp; hstep;
    unfold UserController.refresh_tokens, GuardController.refresh_tokens;
    rewrite Hv; hstep.
  - rewrite (findById_found E User dec i u) by assumption.
    rewrite He. hstep. reflexivity.
  - rewrite (findById_found E Guard dec i u) by assumption.
    rewrite He. hstep. reflexivity.
Qed.




Lemma same_identity_refl (a : Doc) : same_identity a a.
Proof. unfold same_identity. apply Forall_forall. reflexivity. Qed.

Lemma Forall2_diag (R : Doc -> Doc -> Prop) (l : list Doc) :
  (forall a, R a a) -> Forall2 R l l.
Proof. intros H. induction l; constructor; auto. Qed.

Lemma kept_refl (l : list Doc) : kept l l.
Proof.
  exists l, []. split; [symmetry; apply app_nil_r|].
  apply Forall2_diag, same_identity_refl.
Qed.

Lemma kept_app (l : list Doc) (x : Doc) : kept l (l ++ [x]).
Proof.
  exists l, [x]. split; [reflexivity|].
  apply Forall2_diag, same_identity_refl.
Qed.

Lemma kept_update (p : Doc -> bool) (f : Doc -> Doc) (l : list Doc) :
  (forall a, same_identity a (f a)) -> kept l (update_first p f l).
Proof.
  intros Hf. exists (update_first p f l), [].
  split; [symmetry; apply app_nil_r|].
  apply update_first_Forall2; [apply same_identity_refl|]. intros a _. apply Hf.
Qed.

Lemma unassigned_pipeline_In (d : Db) (x : Doc) :
  In x (GuardController.unassigned_pipeline d) ->
  exists g, In g (guards d)
            /\ x !! "_id" = g !! "_id"
            /\ forall l, In l (locations d) ->
                         lookup_key (g !! "_id") <> lookup_key (l !! "guard").
Proof.
  unfold GuardController.unassigned_pipeline. intros Hin.
  apply list_elem_of_In, list_elem_of_fmap in Hin.
  destruct Hin as (g & -> & Hg). apply list_elem_of_In, filter_In in Hg.
  destruct Hg as [Hg Hnone]. exists g. split; [assumption|]. split.
  - rewrite lookup_delete_ne by done. apply hide_secrets_lookup; done.
  - intros l Hl Heq. apply bool_decide_eq_true in Hnone.
    apply length_zero_iff_nil in Hnone.
    assert (Hin : In l (List.filter
                          (fun l => lookup_eq (g !! "_id") (l !! "guard"))
                          (locations d))).
    { apply filter_In. split; [assumption|].
      unfold lookup_eq. apply bool_decide_eq_true_2. assumption. }
    rewrite Hnone in Hin. destruct Hin.
Qed.

Lemma authorised_pipeline_In (d : Db) (y : Doc * Doc) :
  In y (GuardController.authorised_pipeline d) ->
  exists l g, In l (locations d) /\ In g (guards d)
              /\ lookup_key (l !! "guard") = lookup_key (g !! "_id")
              /\ g !! "isApproved" = Some (VBool true)
              /\ snd y = hide_secrets g
              /\ fst y = delete "guardDetails" l.
Proof.
  unfold GuardController.authorised_pipeline. intros Hin.
  apply list_elem_of_In, list_elem_of_fmap in Hin.
  destruct Hin as ([l g] & -> & Hlg). apply list_elem_of_In, filter_In in Hlg.
  destruct Hlg as [Hlg Happ]. apply in_flat_map in Hlg.
  destruct Hlg as (l' & Hl' & Hpair).
  apply list_elem_of_In, list_elem_of_fmap in Hpair.
  destruct Hpair as (g' & [= -> ->] & Hg').
  apply list_elem_of_In, filter_In in Hg'. destruct Hg' as [Hg' Hjoin].
  exists l', g'. cbn [fst snd] in *. repeat split; try assumption.
  - unfold lookup_eq in Hjoin. apply bool_decide_eq_true in Hjoin. exact Hjoin.
  - unfold cond_eq in Happ. apply bool_decide_eq_true in Happ. exact Happ.
Qed.

Lemma unassigned_and_assigned_are_disjoint (d : Db) (x : Doc)
      (y : Doc * Doc) :
  In x (GuardController.unassigned_pipeline d) ->
  In y (GuardController.authorised_pipeline d) ->
  x !! "_id" <> snd y !! "_id".
Proof.
  intros Hx Hy Heq.
  destruct (unassigned_pipeline_In d x Hx) as (g & _ & Hxid & Hfree).
  destruct (authorised_pipeline_In d y Hy)
    as (l & g' & Hl & _ & Hjoin & _ & Hyid & _).
  apply (Hfree l Hl). rewrite <- Hxid, Heq, Hyid.
  rewrite hide_secrets_lookup by done. symmetry. exact Hjoin.
Qed.

Lemma listUnassignedGuards_body (req : Request) (d : Db) (xs : list Doc)
      (status : Z) (msg : string) :
  res_body (res (fst (run (GuardController.listUnassignedGuards req) d)))
  = Some (ApiResponse status (DDocs xs) msg) ->
  xs = GuardController.unassigned_pipeline d.
Proof.
  unfold GuardController.listUnassignedGuards. hstep.
  destruct (bool_decide _); hstep; [discriminate|]. intros [= _ <- _].
  reflexivity.
Qed.

Lemma listAuthorisedGuards_body (req : Request) (d : Db)
      (ys : list (Doc * Doc)) (status : Z) (msg : string) :
  res_body (res (fst (run (GuardController.listAuthorisedGuards req) d)))
  = Some (ApiResponse status (DJoined ys) msg) ->
  ys = GuardController.authorised_pipeline d.
Proof.
  unfold GuardController.listAuthorisedGuards. hstep.
  destruct (bool_decide _); hstep; [discriminate|]. intros [= _ <- _].
  reflexivity.
Qed.


(** An update that leaves the identity fields alone. *)
Ltac keeps_identity :=
  intros ?; unfold same_identity, identity_fields;
  repeat constructor;
  rewrite ?lookup_insert_ne, ?lookup_delete_ne by done; reflexivity.

(** ** Sessions: how login, refresh and logout compose *)

(** X1. [logoutUser] and [logoutGuard], for an authenticated account that
    is stored: the handler answers 200 with an empty object, asks the
    browser to clear both cookies, and unsets the stored refresh token;
    every other field and every other document stay. *)
Theorem logout_unsets_refreshToken (E : Env) (k : Account) (req : Request)
        (d : Db) (u acc : Doc) (i : ObjectId) :
  req_user req = Some u ->
  field u "_id" = VId i ->
  find_first (has_id i) (coll (model_of k) d) = Some acc ->
  run (logout_of k E req) d
  = (mkWorld (unset_refreshToken (model_of k) i d)
       (mkRes 200 []
          [("accessToken", clearCookieOptions);
           ("refreshToken", clearCookieOptions)]
          (Some (ApiResponse 200 DEmpty (logged_out k))))
       0%nat,
     inr tt)
  /\ find_first (has_id i)
       (coll (model_of k) (unset_refreshToken (model_of k) i d))
     = Some (delete "refreshToken" acc)
  /\ only_refreshToken_changed (model_of k) d
       (unset_refreshToken (model_of k) i d).
Proof.
  intros Hu Hid Hf. split; [|split].
  - apply (logout_run E k req d u acc i); assumption.
  - apply unset_stored. assumption.
  - apply unset_frame.
Qed.

(** X2. After a logout, [getAccessToken] refuses every refresh token that
    names the account, with 401, and changes nothing. *)
Theorem refresh_after_logout_is_refused (E : Env) (k : Account)
        (out req : Request) (d : Db) (u acc : Doc) (i : ObjectId)
        (dec : JsVal) :
  req_user out = Some u ->
  field u "_id" = VId i ->
  find_first (has_id i) (coll (model_of k) d) = Some acc ->
  presents_refresh_token req ->
  jwt_verify E (incomingRefreshToken req) = Some dec ->
  cast_id E dec = Some i ->
  let d' := db (fst (run (logout_of k E out) d)) in
  run (getAccessToken_of k E req) d'
  = (mkWorld d' fresh_res 0, inl invalid_refresh_token).
Proof.
  intros Hu Hid Hf Hp Hv Hc d'. unfold d'.
  rewrite (logout_run E k out d u acc i Hu Hid Hf). cbn [fst db].
  apply presents_incoming in Hp.
  apply (getAccessToken_refused E k req _ dec i (delete "refreshToken" acc));
    try assumption.
  - apply unset_stored. assumption.
  - rewrite field_delete_eq. apply strict_eq_undefined. assumption.
Qed.




(** ** Registration *)



(** ** Complaints and appreciations *)

(** X6. [appreciateGuard] never touches a user, a guard, a location or a
    complaint: on every request it either throws and stores nothing, or
    returns and has appended one appreciation with the message and the
    guard id of the request. *)
Theorem appreciateGuard_only_appends (E : Env) (req : Request) (d : Db) :
  let o := run (UserController.appreciateGuard E req) d in
  users (db (fst o)) = users d
  /\ guards (db (fst o)) = guards d
  /\ locations (db (fst o)) = locations d
  /\ complains (db (fst o)) = complains d
  /\ ((appreciations (db (fst o)) = appreciations d
       /\ exists e, snd o = inl e)
      \/ (exists a,
            appreciations (db (fst o)) = (appreciations d ++ [a])%list
            /\ a !! "message" = Some (field (req_body req) "message")
            /\ a !! "guard" = VStr <$> param req "guardId"
            /\ snd o = inr tt)).
Proof.
  cbv zeta. unfold UserController.appreciateGuard. hcrush.
  all: cbn [fst snd db users guards locations complains appreciations
            set_coll coll].
  all: repeat split.
  all: try (left; split; [reflexivity|eexists; reflexivity]).
  all: destruct (param req "guardId") as [gid|]; [|discriminate].
  all: right; eexists; repeat split; reflexivity.
Qed.

(** X18. [authoriseGuard] with a guardId that is no ObjectId looks up a
    newly generated id instead: when no guard has it, the answer is 404
    "Guard not found", not 400, and nothing is stored. *)
Theorem authoriseGuard_invalid_id_404 (E : Env) (req : Request) (d : Db)
        (s : string) :
  truthy (field (req_body req) "complain") = true ->
  param req "guardId" = Some s ->
  s <> EmptyString ->
  toObjectId E s = None ->
  find_first (has_id (newObjectId E 0)) (guards d) = None ->
  run (UserController.authoriseGuard E req) d
  = (mkWorld d fresh_res 1, inl (ApiError 404 "Guard not found")).
Proof.
  intros Hc Hp Hs Hid Hf.
  unfold UserController.authoriseGuard, run. hstep.
  rewrite Hc, Hp. hstep.
  assert (Hm : param_missing (Some s) = false)
    by (destruct s; [congruence | reflexivity]).
  rewrite Hm. hstep. cbn [default]. unfold id.
  rewrite Hid. rewrite bool_decide_eq_false_2 by (intros [? ?]; discriminate).
  unfold new_ObjectId. hstep.
  rewrite (findById_missing E Guard _ (newObjectId E 0)); [reflexivity| |];
    [reflexivity | assumption].
Qed.

(** X19. [appreciateGuard] does not test the guardId: with one that is no
    ObjectId the lookup of the guard throws a CastError, which leaves the
    handler as it is, no [ApiError]; nothing is stored. *)
Theorem appreciateGuard_invalid_id_CastError (E : Env) (req : Request)
        (d : Db) (i : ObjectId) (u : Doc) (s : string) :
  user_id req = VId i ->
  find_first (has_id i) (users d) = Some u ->
  truthy (field (req_body req) "message") = true ->
  param req "guardId" = Some s ->
  s <> EmptyString ->
  toObjectId E s = None ->
  run (UserController.appreciateGuard E req) d
  = (mkWorld d fresh_res 0, inl (JsError "CastError")).
Proof.
  intros Hu Hf Hm Hp Hs Hid.
  unfold UserController.appreciateGuard, run. hstep.
  rewrite Hu, Hm. cbn [truthy]. hstep.
  rewrite (findById_found E User (VId i) i u); [|reflexivity|assumption].
  hstep. rewrite bool_decide_eq_true_2 by eauto. hstep. rewrite Hp.
  assert (Hmiss : param_missing (Some s) = false)
    by (destruct s; [congruence | reflexivity]).
  rewrite Hmiss. hstep. cbn [default]. unfold id.
  unfold findById, cast_id. rewrite Hid. reflexivity.
Qed.

(** ** The guard lists *)

(** X11. No guard is listed by [listUnassignedGuards] and, on the same
    database, by [listAuthorisedGuards] as the guard of a location. *)
Theorem listed_guards_are_disjoint (r1 r2 : Request) (d : Db)
        (xs : list Doc) (ys : list (Doc * Doc)) (s1 s2 : Z) (m1 m2 : string)
        (x : Doc) (y : Doc * Doc) :
  res_body (res (fst (run (GuardController.listUnassignedGuards r1) d)))
  = Some (ApiResponse s1 (DDocs xs) m1) ->
  res_body (res (fst (run (GuardController.listAuthorisedGuards r2) d)))
  = Some (ApiResponse s2 (DJoined ys) m2) ->
  In x xs -> In y ys ->
  x !! "_id" <> snd y !! "_id".
Proof.
  intros H1 H2 Hx Hy.
  apply listUnassignedGuards_body in H1. apply listAuthorisedGuards_body in H2.
  subst xs ys. apply (unassigned_and_assigned_are_disjoint d); assumption.
Qed.

(** X12. Every guard in the answer of [listAutherisedGuards] or of
    [listAuthorisedGuards] is approved. *)
Theorem authorised_lists_hold_approved_guards (r1 r2 : Request) (d : Db) :
  Forall (fun g => g !! "isApproved" = Some (VBool true))
         (returned_accounts
            (res_body (res (fst (run (GuardController.listAutherisedGuards r1)
                                     d)))))
  /\ Forall (fun g => g !! "isApproved" = Some (VBool true))
            (returned_accounts
               (res_body (res (fst (run (GuardController.listAuthorisedGuards
                                           r2) d))))).
Proof.
  split.
  - unfold GuardController.listAutherisedGuards. hstep.
    destruct (bool_decide _); hstep; cbn [returned_accounts]; [constructor|].
    apply Forall_fmap, Forall_forall. intros g Hg.
    apply list_elem_of_In, filter_In in Hg. destruct Hg as [_ Hg].
    cbn. rewrite hide_secrets_lookup by done.
    unfold cond_eq in Hg. apply bool_decide_eq_true in Hg. exact Hg.
  - unfold GuardController.listAuthorisedGuards. hstep.
    destruct (bool_decide _); hstep; cbn [returned_accounts]; [constructor|].
    apply Forall_fmap, Forall_forall. intros y Hy.
    apply list_elem_of_In in Hy.
    destruct (authorised_pipeline_In d y Hy)
      as (l & g & _ & _ & _ & Happ & Hsnd & _).
    cbn. rewrite Hsnd, hide_secrets_lookup by done. exact Happ.
Qed.


(** X14. When [getSingleGuardAssignment] returns, its answer holds the
    locations whose guard is the caller, all of them and no other, and at
    least one. *)
Theorem getSingleGuardAssignment_own_locations (req : Request) (d : Db) :
  snd (run (GuardController.getSingleGuardAssignment req) d) = inr tt ->
  exists ls,
    res_body (res (fst (run (GuardController.getSingleGuardAssignment req) d)))
    = Some (ApiResponse 200 (DDocs ls) "Found deployment")
    /\ ls <> []
    /\ forall l, In l ls
                 <-> In l (locations d) /\ l !! "guard" = Some (user_id req).
Proof.
  unfold GuardController.getSingleGuardAssignment. hstep.
  destruct (truthy (user_id req)) eqn:Ht; hstep; [|discriminate].
  cbn [coll].
  destruct (bool_decide _) eqn:Hlen; hstep; [discriminate|]. intros _.
  eexists. split; [reflexivity|]. split.
  - intros Hnil. apply bool_decide_eq_false in Hlen. apply Hlen.
    rewrite Hnil. reflexivity.
  - intros l. rewrite filter_In, (cond_eq_truthy _ _ _ Ht), bool_decide_eq_true.
    reflexivity.
Qed.

(** ** Work percent *)

(** X17. [updateWorkPercent] changes nothing but the workPercent field of
    guards, on every request. *)
Theorem updateWorkPercent_touches_workPercent_only (E : Env) (req : Request)
        (d : Db) :
  let d' := db (fst (run (GuardController.updateWorkPercent E req) d)) in
  Forall2 (same_but "workPercent") (guards d) (guards d')
  /\ users d' = users d /\ locations d' = locations d
  /\ complains d' = complains d /\ appreciations d' = appreciations d.
Proof.
  assert (Hrefl : Forall2 (same_but "workPercent") (guards d) (guards d)).
  { apply Forall2_diag. intros a f _. reflexivity. }
  cbv zeta. unfold GuardController.updateWorkPercent. hcrush.
  all: cbn [fst db users guards locations complains appreciations set_coll coll].
  all: repeat split; try exact Hrefl.
  all: apply update_first_Forall2;
    [ intros x f _; reflexivity
    | intros x _ f Hf; rewrite lookup_insert_ne by congruence; reflexivity ].
Qed.

(** ** What no handler does *)


(** X8. Every cookie a handler sets is httpOnly, secure and sameSite None;
    cookies are set by the two logins and the two token refreshes only, and
    only on the path that returns with 200, where they are refreshToken and
    accessToken. *)
Theorem cookies_are_protected (E : Env) (ep : Endpoint) (req : Request)
        (d : Db) :
  let r := res (fst (run (controller E ep req) d)) in
  Forall protected_cookie (res_cookies r)
  /\ (res_cookies r = []
      \/ (sets_cookies ep = true
          /\ snd (run (controller E ep req) d) = inr tt
          /\ res_status r = 200
          /\ c_name <$> res_cookies r = ["refreshToken"; "accessToken"])).
Proof.
  cbv zeta.
  destruct ep; hcrush; cbn [fst snd res res_cookies res_status sets_cookies];
    (split; [repeat constructor|]);
    first [left; reflexivity | right; repeat split; reflexivity].
Qed.

(** X9. No handler deletes a document, moves one, or changes the _id,
    userName, email or password of a stored document: after every request
    each collection starts with the documents it had, with these fields as
    they were. *)
Theorem stored_identities_are_kept (E : Env) (ep : Endpoint) (req : Request)
        (d : Db) (m : Model) :
  kept (coll m d) (coll m (db (fst (run (controller E ep req) d)))).
Proof.
  destruct ep; hcrush; cbn [fst db];
    destruct m;
    cbn [coll set_coll users guards locations complains appreciations];
    first [ apply kept_refl
          | apply kept_app
          | apply kept_update; keeps_identity ].
Qed.

(** X10. The handlers that read ([getCurrentUser], [getCurrentGuard], both
    [checkRefreshToken], [getUser], [getGuard], the three guard lists and
    [getSingleGuardAssignment]) leave the database as it is and neither set
    nor clear a cookie, whether they return or throw. *)
Theorem readonly_endpoints_change_nothing (E : Env) (ep : Endpoint)
        (req : Request) (d : Db) :
  is_readonly ep = true ->
  db (fst (run (controller E ep req) d)) = d
  /\ res_cookies (res (fst (run (controller E ep req) d))) = []
  /\ res_cleared (res (fst (run (controller E ep req) d))) = [].
Proof.
  destruct ep; try discriminate; intros _; hcrush;
    cbn [fst db res res_cookies res_cleared]; repeat split.
Qed.

(** ** Worked requests, continued *)


(** Closes an inequality of the sample deployment by evaluation. *)
Ltac by_eval_ne := vm_compute; discriminate.

(** alice logs out. *)
Lemma logout_unsets_refreshToken_witness :
  find_first (has_id 1) (users sampleDb) = Some alice
  /\ snd (run (logout_of AUser sampleEnv logoutRequest) sampleDb) = inr tt
  /\ find_first (has_id 1) (users (unset_refreshToken User 1 sampleDb))
     = Some (delete "refreshToken" alice).
Proof.
  assert (Hf : find_first (has_id 1) (users sampleDb) = Some alice) by by_eval.
  split; [exact Hf|].
  destruct (logout_unsets_refreshToken sampleEnv AUser logoutRequest sampleDb
              alice alice 1 eq_refl) as (Hrun & Hst & _);
    [by_eval | exact Hf |].
  rewrite Hrun. split; [reflexivity | exact Hst].
Defined.

(** alice's old token after her logout. *)
Lemma refresh_after_logout_is_refused_witness :
  presents_refresh_token refreshRequest
  /\ snd (run (getAccessToken_of AUser sampleEnv refreshRequest)
              (db (fst (run (logout_of AUser sampleEnv logoutRequest)
                            sampleDb))))
     = inl invalid_refresh_token.
Proof.
  assert (Hp : presents_refresh_token refreshRequest) by by_eval.
  split; [exact Hp|].
  rewrite (refresh_after_logout_is_refused sampleEnv AUser logoutRequest
             refreshRequest sampleDb alice alice 1 (VId 1) eq_refl);
    [reflexivity | by_eval | by_eval | exact Hp | by_eval | by_eval].
Defined.








(** A complaint about a guard id that is no ObjectId. *)
Lemma authoriseGuard_invalid_id_404_witness :
  toObjectId sampleEnv "bob" = None
  /\ run (UserController.authoriseGuard sampleEnv badIdComplaint) sampleDb
     = (mkWorld sampleDb fresh_res 1, inl (ApiError 404 "Guard not found")).
Proof.
  assert (Hid : toObjectId sampleEnv "bob" = None) by by_eval.
  split; [exact Hid|].
  apply (authoriseGuard_invalid_id_404 sampleEnv badIdComplaint sampleDb "bob");
    [by_eval | by_eval | discriminate | exact Hid | by_eval].
Defined.

(** An appreciation of a guard id that is no ObjectId. *)
Lemma appreciateGuard_invalid_id_CastError_witness :
  toObjectId sampleEnv "bob" = None
  /\ run (UserController.appreciateGuard sampleEnv badIdAppreciation) sampleDb
     = (mkWorld sampleDb fresh_res 0, inl (JsError "CastError")).
Proof.
  assert (Hid : toObjectId sampleEnv "bob" = None) by by_eval.
  split; [exact Hid|].
  apply (appreciateGuard_invalid_id_CastError sampleEnv badIdAppreciation
           sampleDb 1 alice "bob");
    [by_eval | by_eval | by_eval | by_eval | discriminate | exact Hid].
Defined.

(** bob is unassigned, carol stands at her post. *)
Lemma listed_guards_are_disjoint_witness :
  GuardController.unassigned_pipeline fieldDb
  = [delete "assignedLocations" (hide_secrets bob)]
  /\ GuardController.authorised_pipeline fieldDb
     = [(delete "guardDetails" post, hide_secrets carol)]
  /\ delete "assignedLocations" (hide_secrets bob) !! "_id"
     <> hide_secrets carol !! "_id".
Proof.
  assert (H1 : GuardController.unassigned_pipeline fieldDb
               = [delete "assignedLocations" (hide_secrets bob)]) by by_eval.
  assert (H2 : GuardController.authorised_pipeline fieldDb
               = [(delete "guardDetails" post, hide_secrets carol)])
    by by_eval.
  split; [exact H1|]. split; [exact H2|].
  apply (listed_guards_are_disjoint emptyRequest emptyRequest fieldDb
           [delete "assignedLocations" (hide_secrets bob)]
           [(delete "guardDetails" post, hide_secrets carol)]
           200 200
           "Unassigned guards retrieved successfully"
           "Authorised guards retrieved successfully"
           (delete "assignedLocations" (hide_secrets bob))
           (delete "guardDetails" post, hide_secrets carol));
    [by_eval | by_eval | left; reflexivity | left; reflexivity].
Defined.


(** carol asks where she is deployed. *)
Lemma getSingleGuardAssignment_own_locations_witness :
  snd (run (GuardController.getSingleGuardAssignment carolRequest) fieldDb)
  = inr tt
  /\ exists ls,
      res_body (res (fst (run (GuardController.getSingleGuardAssignment
                                 carolRequest) fieldDb)))
      = Some (ApiResponse 200 (DDocs ls) "Found deployment")
      /\ ls <> []
      /\ forall l, In l ls
                   <-> In l (locations fieldDb)
                       /\ l !! "guard" = Some (user_id carolRequest).
Proof.
  assert (Hok : snd (run (GuardController.getSingleGuardAssignment carolRequest)
                         fieldDb) = inr tt) by by_eval.
  split; [exact Hok|].
  apply (getSingleGuardAssignment_own_locations carolRequest fieldDb Hok).
Defined.

(** bob reports half of his work done. *)
Lemma updateWorkPercent_numbers_witness :
  user_id halfPercentRequest = VId 2
  /\ (qz 0 <= qz 50 /\ qz 50 <= qz 100)%Qc
  /\ snd (run (GuardController.updateWorkPercent sampleEnv halfPercentRequest)
              sampleDb) = inr tt
  /\ stored_workPercent 2
       (db (fst (run (GuardController.updateWorkPercent sampleEnv
                        halfPercentRequest) sampleDb)))
     = num 50.
Proof.
  assert (Hu : user_id halfPercentRequest = VId 2) by by_eval.
  assert (Hr : (qz 0 <= qz 50 /\ qz 50 <= qz 100)%Qc)
    by (split; by_eval_ne).
  split; [exact Hu|]. split; [exact Hr|].
  destruct (updateWorkPercent_numbers sampleEnv halfPercentRequest sampleDb
              2 bob Hu) as [_ Hnum]; [by_eval|].
  destruct (Hnum (qz 50)) as [_ Hin]; [by_eval|].
  rewrite (Hin Hr). split; [reflexivity | by_eval].
Defined.


(** A lookup of bob changes nothing. *)
Lemma readonly_endpoints_change_nothing_witness :
  is_readonly GetGuard = true
  /\ db (fst (run (controller sampleEnv GetGuard lookupRequest) sampleDb))
     = sampleDb
  /\ res_cookies (res (fst (run (controller sampleEnv GetGuard lookupRequest)
                                sampleDb))) = []
  /\ res_cleared (res (fst (run (controller sampleEnv GetGuard lookupRequest)
                                sampleDb))) = [].
Proof.
  split; [reflexivity|].
  apply (readonly_endpoints_change_nothing sampleEnv GetGuard lookupRequest
           sampleDb eq_refl).
Defined.
